(** * auth-cookie: the random-forest training script [model/train.py]

    A shallow embedding of the script and the properties its specification
    states about it.  The script is a straight line of library calls
    (pandas, scikit-learn, keras-tuner, pickle) around three pieces of logic
    of its own: the z-score normalisation with six columns put back
    (lines 17-23), the cached-model branch (lines 67-74) and the guarded
    save (lines 99-101).

    Conventions.
    - A [DataFrame] is its list of named columns, in column order; cells are
      real numbers.  IEEE rounding, NaN and infinities are outside the model:
      statements about computed statistics are stated in exact arithmetic and
      say so.
    - Third-party functions are the fields of [Library].  The two calls into
      keras-tuner see the process: they read and write files, draw random
      numbers, read the command line and the environment, and print.  [fit]
      draws random numbers.  The other calls are functions of the arguments
      the script passes them.  Nothing else is assumed about them beyond what
      a theorem lists as a hypothesis.
    - The script runs in the monad [M]: a state (the [world]) and an
      exception. *)

From Stdlib Require Import Reals Lra Lia ZArith.
From stdpp Require Import base gmap strings list pretty.

#[local] Open Scope string_scope.

(** ** Column statistics *)

Module Stats.

#[local] Open Scope R_scope.

Definition column := list R.

Definition sum_list (xs : column) : R := fold_right Rplus 0 xs.

(** [Series.mean()] of a column without missing values. *)
Definition mean (xs : column) : R := sum_list xs / INR (length xs).

(** Sum of squared deviations from [m]. *)
Definition sum_sq (m : R) (xs : column) : R :=
  sum_list (map (fun x => (x - m) * (x - m)) xs).

(** The sample variance, [ddof = 1], which is what [Series.std()] is the
    square root of. *)
Definition variance (xs : column) : R :=
  sum_sq (mean xs) xs / (INR (length xs) - 1).

(** [Series.std()]. *)
Definition std (xs : column) : R := sqrt (variance xs).

(** One column of [(ds - ds.mean()) / ds.std()]. *)
Definition zscore (xs : column) : column :=
  map (fun x => (x - mean xs) / std xs) xs.

(** A change of unit: scale by [a], shift by [b]. *)
Definition rescale (a b : R) (x : R) : R := a * x + b.

End Stats.

(** ** Data frames *)

Module Pandas.

Import Stats.

(** A [DataFrame]: named columns in column order.  [pd.read_csv] renames
    repeated header names, so the names of a loaded frame are distinct. *)
Definition frame := list (string * column).

(** A [Series] indexed by column names, the result of [ds.mean()]. *)
Definition series := list (string * R).

(** [ds.mean()] and [ds.std()]: one statistic per column, indexed by the
    column's name, in column order. *)
Definition frame_mean (ds : frame) : series :=
  map (fun c => (fst c, mean (snd c))) ds.

Definition frame_std (ds : frame) : series :=
  map (fun c => (fst c, std (snd c))) ds.

(** [ds - s] and [ds / s] for a series [s] whose index is the frame's own
    column index: the operation is applied column by column. *)
Definition frame_sub (ds : frame) (s : series) : frame :=
  zip_with (fun c m => (fst c, map (fun x => (x - snd m)%R) (snd c))) ds s.

Definition frame_div (ds : frame) (s : series) : frame :=
  zip_with (fun c m => (fst c, map (fun x => (x / snd m)%R) (snd c))) ds s.

(** [ds[c]]: the column named [c], [None] where pandas raises [KeyError]. *)
Fixpoint get_column (c : string) (ds : frame) : option column :=
  match ds with
  | [] => None
  | (c', xs) :: rest => if String.eqb c c' then Some xs else get_column c rest
  end.

(** [ds[c] = xs]: the column named [c] is replaced where it stands, and a new
    name is added as the last column. *)
Fixpoint set_column (c : string) (xs : column) (ds : frame) : frame :=
  match ds with
  | [] => [(c, xs)]
  | (c', ys) :: rest =>
      if String.eqb c c' then (c', xs) :: rest
      else (c', ys) :: set_column c xs rest
  end.

(** [ds.drop(c, axis=1)]: the frame without the column named [c]; [None]
    where pandas raises [KeyError]. *)
Fixpoint drop_column (c : string) (ds : frame) : option frame :=
  match ds with
  | [] => None
  | (c', xs) :: rest =>
      if String.eqb c c' then Some rest
      else option_map (cons (c', xs)) (drop_column c rest)
  end.

(** [ds[[c]]]: the one-column frame. *)
Definition select_column (c : string) (ds : frame) : option frame :=
  option_map (fun xs => [(c, xs)]) (get_column c ds).

(** [ds.values.ravel()]: the cells in row-major order, [n] rows. *)
Fixpoint ravel_rows (n : nat) (cols : list column) : column :=
  match n with
  | O => []
  | S n' =>
      (omap head cols ++ ravel_rows n' (map (@tail R) cols))%list
  end.

Definition values_ravel (ds : frame) : column :=
  match ds with
  | [] => []
  | (_, xs) :: _ => ravel_rows (length xs) (map snd ds)
  end.

End Pandas.

(** ** The Python runtime: exceptions, files, the script's monad *)

Module Py.

(** The exception classes the script's own code raises or catches, and
    [OtherError] for every other class, by its name. *)
Inductive exn :=
  | FileNotFoundError
  | IsADirectoryError
  | KeyError (key : string)
  | IndexError
  | ValueError
  | OtherError (cls : string).

(** The outcome of an expression: [inl e] when it raised [e]. *)
Definition result (A : Type) : Type := (exn + A)%type.

Definition is_FileNotFoundError (e : exn) : bool :=
  match e with FileNotFoundError => true | _ => false end.

(** What a path names: a regular file with its content, or a directory. *)
Inductive node :=
  | File (content : string)
  | Dir.

(** An argument of [print]. *)
Inductive pval :=
  | PStr (s : string)
  | PInt (z : Z)
  | PFloat (r : R).

(** The statements of the script, logged as each one starts. *)
Inductive event :=
  | EvReadCsv (path : string)
  | EvNormalize
  | EvSplit
  | EvLoadModel (path : string)
  | EvSearch
  | EvFit
  | EvEvaluate
  | EvSerialize (path : string).

#[global] Instance exn_eq_dec : EqDecision exn.
Proof. solve_decision. Defined.

#[global] Instance node_eq_dec : EqDecision node.
Proof. solve_decision. Defined.

#[global] Instance event_eq_dec : EqDecision event.
Proof. solve_decision. Defined.

(** The process and its surroundings.  [rng] is the state of the global
    random generator that unseeded library calls draw from; [trace] is a
    ghost log of the statements executed so far. *)
Record world := World {
  fs : gmap string node;
  rng : N;
  argv : list string;
  environ : gmap string string;
  stdout : list (list pval);
  trace : list event;
}.

Definition set_fs (f : gmap string node) (w : world) : world :=
  World f (rng w) (argv w) (environ w) (stdout w) (trace w).

Definition set_rng (g : N) (w : world) : world :=
  World (fs w) g (argv w) (environ w) (stdout w) (trace w).

Definition add_stdout (line : list pval) (w : world) : world :=
  World (fs w) (rng w) (argv w) (environ w) (stdout w ++ [line]) (trace w).

Definition add_trace (ev : event) (w : world) : world :=
  World (fs w) (rng w) (argv w) (environ w) (stdout w) (trace w ++ [ev]).

Definition add_lines (lines : list (list pval)) (w : world) : world :=
  World (fs w) (rng w) (argv w) (environ w) (stdout w ++ lines) (trace w).

(** A computation of the script: it reads and updates the world and either
    returns a value or raises. *)
Definition M (A : Type) : Type := world -> result A * world.

#[global] Instance result_ret : MRet result := fun A x => inr x.
#[global] Instance result_bind : MBind result := fun A B k m =>
  match m with
  | inl e => inl e
  | inr a => k a
  end.

#[global] Instance M_ret : MRet M := fun A x w => (inr x, w).
#[global] Instance M_bind : MBind M := fun A B k m w =>
  match m w with
  | (inl e, w') => (inl e, w')
  | (inr a, w') => k a w'
  end.

Definition raise {A} (e : exn) : M A := fun w => (inl e, w).

(** A pure outcome as a computation. *)
Definition lift {A} (r : result A) : M A := fun w => (r, w).

(** [try: body except <class>: handler], the class given by [catches]. *)
Definition try_except {A} (body : M A) (catches : exn -> bool) (handler : M A)
  : M A := fun w =>
  match body w with
  | (inl e, w') => if catches e then handler w' else (inl e, w')
  | (inr a, w') => (inr a, w')
  end.

Definition log (ev : event) : M unit := fun w => (inr tt, add_trace ev w).

Definition print (line : list pval) : M unit :=
  fun w => (inr tt, add_stdout line w).

(** The same world with another command line and environment. *)
Definition with_args (a : list string) (e : gmap string string) (w : world)
  : world :=
  World (fs w) (rng w) a e (stdout w) (trace w).

(** A computation that neither reads nor changes the command line and the
    environment: under another pair it returns the same outcome and makes the
    same changes to the rest of the world. *)
Definition blind {A} (m : M A) : Prop :=
  forall w a e, m (with_args a e w) = ((m w).1, with_args a e (m w).2).

(** [sys.argv] and [os.environ.get(key)], which a script can read. *)
Definition sys_argv : M (list string) := fun w => (inr (argv w), w).

Definition os_environ_get (key : string) : M (option string) :=
  fun w => (inr (environ w !! key), w).

(** A library call that sees the process: given the files, the state of the
    random generator, the command line and the environment, it returns or
    raises, and leaves new files, a new generator state and the lines it
    printed. *)
Definition lib_io (A : Type) : Type :=
  gmap string node -> N -> list string -> gmap string string ->
  result A * gmap string node * N * list (list pval).

Definition call_io {A} (f : lib_io A) : M A := fun w =>
  match f (fs w) (rng w) (argv w) (environ w) with
  | (r, f', g', lines) => (r, add_lines lines (set_rng g' (set_fs f' w)))
  end.

(** A library call that only draws random numbers. *)
Definition lib_rng (A : Type) : Type := N -> result A * N.

Definition call_rng {A} (f : lib_rng A) : M A := fun w =>
  match f (rng w) with
  | (r, g') => (r, set_rng g' w)
  end.

(** [open(path, 'rb')] followed by reading the whole file. *)
Definition open_rb (path : string) : M string := fun w =>
  match fs w !! path with
  | None => (inl FileNotFoundError, w)
  | Some Dir => (inl IsADirectoryError, w)
  | Some (File content) => (inr content, w)
  end.

(** [os.path.isfile(path)]. *)
Definition isfile (path : string) : M bool := fun w =>
  match fs w !! path with
  | Some (File _) => (inr true, w)
  | _ => (inr false, w)
  end.

(** [open(path, 'wb')]: the file is created, or emptied when it exists. *)
Definition open_wb (path : string) : M unit := fun w =>
  match fs w !! path with
  | Some Dir => (inl IsADirectoryError, w)
  | _ => (inr tt, set_fs (<[path := File ""]> (fs w)) w)
  end.

(** Writing [data] to the file opened at [path]. *)
Definition write (path : string) (data : string) : M unit := fun w =>
  match fs w !! path with
  | Some (File content) =>
      (inr tt, set_fs (<[path := File (content +:+ data)]> (fs w)) w)
  | _ => (inr tt, w)
  end.

End Py.

(** ** The third-party interface *)

Module Lib.

Import Stats Pandas Py.

(** The keyword arguments of [RandomForestClassifier(...)] in [build_model]. *)
Record forest_params := ForestParams {
  n_estimators : Z;
  criterion : string;
  max_depth : Z;
  min_samples_split : Z;
  max_features : string;
  max_leaf_nodes : Z;
  max_samples : R;
  class_weight : string;
  oob_score : string;
}.

(** The labels handed to a metric: a one-column [DataFrame] ([y_test]) or a
    flat array ([y_train.values.ravel()]). *)
Inductive array_like :=
  | OfFrame (ds : frame)
  | OfArray (xs : column).

(** [kt.Objective(name, direction)]. *)
Record objective := Objective {
  objective_name : string;
  objective_direction : string;
}.

(** The arguments of [kt.tuners.SklearnTuner(...)], lines 76-86: the
    oracle's objective and trial budget, the model builder, the metric that
    [make_scorer] wraps, the number of folds of [StratifiedKFold], and where
    the tuner keeps its trials. *)
Record tuner_args (hyperparameters forest : Type) := TunerArgs {
  oracle_objective : objective;
  oracle_max_trials : Z;
  hypermodel : hyperparameters -> forest;
  scoring : array_like -> column -> result R;
  cv_splits : Z;
  directory : string;
  project_name : string;
}.

Arguments TunerArgs {_ _}.

(** What [pickle.load] can return, by the one distinction the script makes:
    [None], an object whose type is [RandomForestClassifier], or an object
    of another class. *)
Inductive pyobj (forest : Type) :=
  | PyNone
  | PyForest (m : forest)
  | PyOther (cls : string).

Arguments PyNone {_}.
Arguments PyForest {_}.
Arguments PyOther {_}.

(** The library functions the script calls.  [forest] is a
    [RandomForestClassifier] object, [hyperparameters] a keras-tuner
    [HyperParameters] object and [tuner] a [SklearnTuner]. *)
Class Library := {
  forest : Type;
  hyperparameters : Type;
  tuner : Type;
  (* pandas: the parse of a file's content *)
  read_csv : string -> result frame;
  (* sklearn.model_selection: X, y, test_size, random_state *)
  train_test_split :
    frame -> frame -> R -> Z -> result (frame * frame * frame * frame);
  (* keras_tuner.HyperParameters: name, min, max, step; name, values *)
  hp_Int : hyperparameters -> string -> Z -> Z -> Z -> Z;
  hp_Choice : hyperparameters -> string -> list string -> string;
  hp_Float : hyperparameters -> string -> R -> R -> R -> R;
  (* sklearn.ensemble *)
  RandomForestClassifier : forest_params -> forest;
  fit : forest -> frame -> column -> lib_rng forest;
  predict : forest -> frame -> result column;
  (* keras_tuner *)
  SklearnTuner : tuner_args hyperparameters forest -> lib_io tuner;
  search : tuner -> frame -> column -> lib_io tuner;
  get_best_hyperparameters : tuner -> result (list hyperparameters);
  (* sklearn.metrics: y_true, y_pred (and beta) *)
  confusion_matrix : array_like -> column -> result (list Z);
  recall_score : array_like -> column -> result R;
  precision_score : array_like -> column -> result R;
  fbeta_score : array_like -> column -> R -> result R;
  average_precision_score : array_like -> column -> result R;
  (* PrecisionRecallDisplay.from_estimator and plt.show *)
  plot_precision_recall : forest -> frame -> frame -> result unit;
  (* pickle: an object from a file's content, and the bytes of a model *)
  pickle_load : string -> result (pyobj forest);
  pickle_dumps : forest -> result string;
}.

End Lib.

(** ** The script *)

Module Train.

Import Stats Pandas Py Lib.

(** *** Lines 15-23: normalisation *)

(** [normalized_ds[c] = ds[c]]. *)
Definition restore (c : string) (ds nds : frame) : result frame :=
  match get_column c ds with
  | Some xs => inr (set_column c xs nds)
  | None => inl (KeyError c)
  end.

Definition normalize (ds : frame) : result frame :=
  let normalized_ds := frame_div (frame_sub ds (frame_mean ds)) (frame_std ds) in
  normalized_ds ← restore "Class" ds normalized_ds;
  normalized_ds ← restore "Length" ds normalized_ds;
  normalized_ds ← restore "TFIDF_H" ds normalized_ds;
  normalized_ds ← restore "TFIDF_S" ds normalized_ds;
  normalized_ds ← restore "TFIDF_J" ds normalized_ds;
  normalized_ds ← restore "Z_Length" ds normalized_ds;
  mret normalized_ds.

(** The columns lines 18-23 assign. *)
Definition restored_columns : list string :=
  ["Class"; "Length"; "TFIDF_H"; "TFIDF_S"; "TFIDF_J"; "Z_Length"].

(** *** Lines 25-29: the label, the features, the split *)

Definition seed : Z := 12.

Definition test_size : R := (2 / 10)%R.

Definition label_frame (normalized_ds : frame) : result frame :=
  match select_column "Class" normalized_ds with
  | Some y => inr y
  | None => inl (KeyError "Class")
  end.

Definition feature_frame (normalized_ds : frame) : result frame :=
  match drop_column "Class" normalized_ds with
  | Some X => inr X
  | None => inl (KeyError "Class")
  end.

Section Script.

Context `{L : Library}.

Definition split (normalized_ds : frame)
  : result (frame * frame * frame * frame) :=
  y ← label_frame normalized_ds;
  X ← feature_frame normalized_ds;
  train_test_split X y test_size seed.

(** *** Lines 32-44 *)

Definition build_model (hp : hyperparameters) : forest :=
  RandomForestClassifier {|
    n_estimators := hp_Int hp "n_estimators" 1 500 5;
    criterion := hp_Choice hp "criterion" ["gini"; "entropy"];
    max_depth := hp_Int hp "max_depth" 1 20 1;
    min_samples_split := hp_Int hp "min_samples_split" 2 300 5;
    max_features := hp_Choice hp "max_features" ["auto"; "log2"];
    max_leaf_nodes := hp_Int hp "max_leaf_nodes" 2 250 5;
    max_samples := hp_Float hp "max_samples" (1 / 100) 1 (1 / 100);
    class_weight := "balanced";
    oob_score := "True";
  |}.

(** *** Lines 47-64 *)

Definition evaluate_model (X_test y_test : frame)
    (model : forest) (x_ y_true : frame) (show_plot : bool) : M unit :=
  y_pred ← lift (predict model x_);
  counts ← lift (confusion_matrix (OfFrame y_true) y_pred);
  match counts with
  | [tn; fp; fn; tp] =>
      print [PStr "Specificity:"; PFloat (IZR tn / IZR (tn + fp))];;
      recall ← lift (recall_score (OfFrame y_true) y_pred);
      print [PStr "Sensitivity/Recall:"; PFloat recall];;
      precision ← lift (precision_score (OfFrame y_true) y_pred);
      print [PStr "Precision:"; PFloat precision];;
      f2 ← lift (fbeta_score (OfFrame y_true) y_pred 2);
      print [PStr "F2-Score:"; PFloat f2];;
      print [PStr "Confusion Matrix:"];;
      print [PStr "tp:"; PInt tp; PStr "fn:"; PInt fn];;
      print [PStr "fp:"; PInt fp; PStr "tn:"; PInt tn];;
      pr_auc ← lift (average_precision_score (OfFrame y_true) y_pred);
      print [PStr "PR-AUC:"; PFloat pr_auc];;
      if negb show_plot then mret tt
      else lift (plot_precision_recall model X_test y_test)
  | _ => raise ValueError
  end.

(** *** Lines 67-71: the cached model *)

Definition csv_path : string := "data/features.csv".

Definition filename : string := "model.sav".

Definition load_cached : M (pyobj forest) :=
  try_except
    (content ← open_rb filename; lift (pickle_load content))
    is_FileNotFoundError
    (mret PyNone).

(** *** Lines 73-94: search and fit, unless the cached object is a forest *)

(** [type(best_model) != RandomForestClassifier]. *)
Definition needs_search (best_model : pyobj forest) : bool :=
  match best_model with
  | PyForest _ => false
  | _ => true
  end.

Definition tuner_arguments : tuner_args hyperparameters forest :=
  {| oracle_objective := Objective "score" "max";
     oracle_max_trials := 250;
     hypermodel := build_model;
     scoring := fun y_true y_pred => fbeta_score y_true y_pred 2;
     cv_splits := 10;
     directory := "./model/";
     project_name := "random_forest" |}.

Definition search_and_fit (X_train y_train : frame) : M forest :=
  log EvSearch;;
  tuner ← call_io (SklearnTuner tuner_arguments);
  tuner ← call_io (search tuner X_train (values_ravel y_train));
  best ← lift (get_best_hyperparameters tuner);
  best_hp ← match best with
            | hp :: _ => mret hp
            | [] => raise IndexError
            end;
  log EvFit;;
  let best_model := build_model best_hp in
  call_rng (fit best_model X_train (values_ravel y_train)).

(** *** Lines 99-101: the save *)

Definition save (best_model : forest) : M unit :=
  present ← isfile filename;
  if negb present then
    log (EvSerialize filename);;
    open_wb filename;;
    data ← lift (pickle_dumps best_model);
    write filename data
  else mret tt.

(** *** The module body, lines 13-101, statement by statement *)

(** Line 13. *)
Definition load_features : M frame :=
  log (EvReadCsv csv_path);;
  content ← open_rb csv_path;
  lift (read_csv content).

(** Lines 15-23. *)
Definition normalize_stage (ds : frame) : M frame :=
  log EvNormalize;;
  lift (normalize ds).

(** Lines 25-29. *)
Definition split_stage (normalized_ds : frame)
  : M (frame * frame * frame * frame) :=
  log EvSplit;;
  lift (split normalized_ds).

(** Lines 67-94. *)
Definition best_model_stage (X_train y_train : frame) : M forest :=
  log (EvLoadModel filename);;
  best_model ← load_cached;
  match best_model with
  | PyForest m => mret m
  | _ => search_and_fit X_train y_train
  end.

(** Lines 96-97. *)
Definition evaluate_stage (best_model : forest) (X_test y_test : frame)
  : M unit :=
  log EvEvaluate;;
  print [PStr ("Performance on test set " +:+ pretty seed +:+ ":")];;
  evaluate_model X_test y_test best_model X_test y_test false.

Definition main : M unit :=
  ds ← load_features;
  normalized_ds ← normalize_stage ds;
  '(X_train, X_test, y_train, y_test) ← split_stage normalized_ds;
  best_model ← best_model_stage X_train y_train;
  evaluate_stage best_model X_test y_test;;
  save best_model.

(** A run of the script: the process starts with the files [f], the random
    generator in state [g], the command line [a] and the environment [e],
    and with nothing printed or logged yet. *)
Definition run (f : gmap string node) (g : N) (a : list string)
    (e : gmap string string) : result unit * world :=
  main (World f g a e [] []).


(** The paths of the serialisations a log records. *)
Definition serialized (tr : list event) : list string :=
  omap (fun ev => match ev with EvSerialize path => Some path | _ => None end)
    tr.


(** The tuner keeps its files away from [path]: neither creating the tuner
    nor searching changes what [path] names. *)
Definition tuner_keeps_off (path : string) : Prop :=
  (forall args f g a e,
     (SklearnTuner args f g a e).1.1.2 !! path = f !! path) /\
  (forall t X y f g a e,
     (search t X y f g a e).1.1.2 !! path = f !! path).


(** The line of line 96. *)
Definition header_line : list pval :=
  [PStr ("Performance on test set " +:+ pretty seed +:+ ":")].

(** The eight lines of lines 50-57, from the cells of the confusion matrix
    and the four scores. *)
Definition report_lines (tn fp fn tp : Z) (recall precision f2 pr_auc : R)
  : list (list pval) :=
  [ [PStr "Specificity:"; PFloat (IZR tn / IZR (tn + fp))];
    [PStr "Sensitivity/Recall:"; PFloat recall];
    [PStr "Precision:"; PFloat precision];
    [PStr "F2-Score:"; PFloat f2];
    [PStr "Confusion Matrix:"];
    [PStr "tp:"; PInt tp; PStr "fn:"; PInt fn];
    [PStr "fp:"; PInt fp; PStr "tn:"; PInt tn];
    [PStr "PR-AUC:"; PFloat pr_auc] ].

(** The data file is read, normalised and split, without an exception,
    into [parts]. *)
Definition prepares (f : gmap string node)
    (parts : frame * frame * frame * frame) : Prop :=
  exists content ds normalized_ds,
    f !! csv_path = Some (File content) /\
    read_csv content = inr ds /\
    normalize ds = inr normalized_ds /\
    split normalized_ds = inr parts.

(** In the process [(f, g, a, e)] the tuner is created, searches and names a
    first best entry, and the forest built from that entry fits the training
    set to [model], none of them raising; the calls leave the files [f'] and
    the generator state [g'], and the tuner prints [lines]. *)
Definition searches (X_train y_train : frame)
    (f : gmap string node) (g : N) (a : list string) (e : gmap string string)
    (model : forest) (f' : gmap string node) (g' : N)
    (lines : list (list pval)) : Prop :=
  exists t1 f1 g1 lines1 t2 g2 lines2 hp rest,
    SklearnTuner tuner_arguments f g a e = (inr t1, f1, g1, lines1) /\
    search t1 X_train (values_ravel y_train) f1 g1 a e =
      (inr t2, f', g2, lines2) /\
    get_best_hyperparameters t2 = inr (hp :: rest) /\
    fit (build_model hp) X_train (values_ravel y_train) g2 = (inr model, g') /\
    lines = (lines1 ++ lines2)%list.

(** [model] predicts the test set and every metric of lines 48-57 is
    computed, none of them raising; [report] is what is printed. *)
Definition evaluates (model : forest) (X_test y_test : frame)
    (report : list (list pval)) : Prop :=
  exists y_pred tn fp fn tp recall precision f2 pr_auc,
    predict model X_test = inr y_pred /\
    confusion_matrix (OfFrame y_test) y_pred = inr [tn; fp; fn; tp] /\
    recall_score (OfFrame y_test) y_pred = inr recall /\
    precision_score (OfFrame y_test) y_pred = inr precision /\
    fbeta_score (OfFrame y_test) y_pred 2 = inr f2 /\
    average_precision_score (OfFrame y_test) y_pred = inr pr_auc /\
    report = report_lines tn fp fn tp recall precision f2 pr_auc.

(** The first of the columns of lines 18-23 that [ds] lacks. *)
Definition first_missing (ds : frame) : option string :=
  List.find
    (fun c => match get_column c ds with None => true | Some _ => false end)
    restored_columns.

(** The number of cells of each column, in column order. *)
Definition row_counts (ds : frame) : list nat :=
  map (fun c => length (snd c)) ds.

(** The text a printed line starts with. *)
Definition line_label (line : list pval) : option string :=
  match line with
  | PStr s :: _ => Some s
  | _ => None
  end.

(** What the lines of [evaluate_model] start with, in program order. *)
Definition report_labels : list string :=
  ["Specificity:"; "Sensitivity/Recall:"; "Precision:"; "F2-Score:";
   "Confusion Matrix:"; "tp:"; "fp:"; "PR-AUC:"].

End Script.

End Train.

(** ** A small library and small worlds to run the script on *)

Module Example.

Import Stats Pandas Py Lib Train.

(** Two rows, the six columns the script assigns and one feature [F]. *)
Definition two_rows : frame :=
  [("Class", [0; 1]); ("Length", [3; 5]); ("TFIDF_H", [1; 2]);
   ("TFIDF_S", [2; 1]); ("TFIDF_J", [0; 4]); ("Z_Length", [-1; 1]);
   ("F", [1; 2])]%R.

(** The same table without the column [Class]. *)
Definition no_class : frame :=
  [("Length", [3; 5]); ("TFIDF_H", [1; 2]); ("F", [1; 2])]%R.

(** A table that lacks TFIDF_S and Z_Length. *)
Definition lacks_two : frame :=
  [("Class", [0; 1]); ("Length", [3; 5]); ("TFIDF_H", [1; 2]);
   ("TFIDF_J", [0; 4]); ("F", [1; 2])]%R.

Definition normalized_two_rows : frame :=
  match normalize two_rows with
  | inr normalized_ds => normalized_ds
  | inl _ => []
  end.

Definition rows_from (n : nat) (ds : frame) : frame :=
  map (fun c => (fst c, drop n (snd c))) ds.

Definition rows_upto (n : nat) (ds : frame) : frame :=
  map (fun c => (fst c, take n (snd c))) ds.

Definition default_params : forest_params :=
  ForestParams 1 "gini" 1 2 "auto" 2 (1 / 100) "balanced" "True".

(** A stand-in for the libraries.  A forest is its parameters and whether it
    was fitted; the tuner runs no trial of its own and proposes the default
    hyperparameters; a model file holds the word [forest], anything else
    unpickles to a [dict], and an empty file does not unpickle. *)
Definition toy : Library := {|
  forest := forest_params * bool;
  hyperparameters := unit;
  tuner := unit;
  read_csv content :=
    if String.eqb content "two rows" then inr two_rows
    else if String.eqb content "no class" then inr no_class
    else inl (OtherError "ParserError");
  train_test_split X y _ _ :=
    inr (rows_from 1 X, rows_upto 1 X, rows_from 1 y, rows_upto 1 y);
  hp_Int _ _ lo _ _ := lo;
  hp_Choice _ _ values := default "" (head values);
  hp_Float _ _ lo _ _ := lo;
  RandomForestClassifier params := (params, false);
  fit model _ _ := fun g => (inr (model.1, true), N.succ g);
  predict model X :=
    if model.2 then inr (default [] (head (map snd X)))
    else inl (OtherError "NotFittedError");
  SklearnTuner args := fun f g _ _ =>
    (inr tt, <["./model/random_forest/oracle.json" := File "{}"]> f, g, []);
  search _ _ _ := fun f g _ _ =>
    (inr tt, <["./model/random_forest/trial_0/trial.json" := File "{}"]> f,
     N.succ g, [[PStr "Search: Running Trial #1"]]);
  get_best_hyperparameters _ := inr [tt];
  confusion_matrix _ _ := inr [1; 0; 0; 1]%Z;
  recall_score _ _ := inr 1%R;
  precision_score _ _ := inr 1%R;
  fbeta_score _ _ _ := inr 1%R;
  average_precision_score _ _ := inr 1%R;
  plot_precision_recall _ _ _ := inr tt;
  pickle_load content :=
    if String.eqb content "" then inl (OtherError "EOFError")
    else if String.eqb content "forest" then inr (PyForest (default_params, true))
    else inr (PyOther "dict");
  pickle_dumps _ := inr "forest";
|}.

(** The same stand-in, with the cells of the confusion matrix and the
    tuner's list of best hyperparameters chosen. *)
Definition toy_with (cells : list Z) (best : list unit) : Library := {|
  forest := @forest toy;
  hyperparameters := unit;
  tuner := unit;
  read_csv := @read_csv toy;
  train_test_split := @train_test_split toy;
  hp_Int := @hp_Int toy;
  hp_Choice := @hp_Choice toy;
  hp_Float := @hp_Float toy;
  RandomForestClassifier := @RandomForestClassifier toy;
  fit := @fit toy;
  predict := @predict toy;
  SklearnTuner := @SklearnTuner toy;
  search := @search toy;
  get_best_hyperparameters _ := inr best;
  confusion_matrix _ _ := inr cells;
  recall_score := @recall_score toy;
  precision_score := @precision_score toy;
  fbeta_score := @fbeta_score toy;
  average_precision_score := @average_precision_score toy;
  plot_precision_recall := @plot_precision_recall toy;
  pickle_load := @pickle_load toy;
  pickle_dumps := @pickle_dumps toy;
|}.

(** The same stand-in with another tuner constructor and another unpickler. *)
Definition toy_variant
    (new_tuner : tuner_args unit (forest_params * bool) -> lib_io unit)
    (load : string -> result (pyobj (forest_params * bool))) : Library := {|
  forest := @forest toy;
  hyperparameters := unit;
  tuner := unit;
  read_csv := @read_csv toy;
  train_test_split := @train_test_split toy;
  hp_Int := @hp_Int toy;
  hp_Choice := @hp_Choice toy;
  hp_Float := @hp_Float toy;
  RandomForestClassifier := @RandomForestClassifier toy;
  fit := @fit toy;
  predict := @predict toy;
  SklearnTuner := new_tuner;
  search := @search toy;
  get_best_hyperparameters := @get_best_hyperparameters toy;
  confusion_matrix := @confusion_matrix toy;
  recall_score := @recall_score toy;
  precision_score := @precision_score toy;
  fbeta_score := @fbeta_score toy;
  average_precision_score := @average_precision_score toy;
  plot_precision_recall := @plot_precision_recall toy;
  pickle_load := load;
  pickle_dumps := @pickle_dumps toy;
|}.


(** An unpickler that runs what the pickle asks for: the content [open
    missing] stands for a pickle whose reconstruction opens a file that does
    not exist. *)
Definition toy_reduce : Library :=
  toy_variant (@SklearnTuner toy)
    (fun content =>
       if String.eqb content "open missing" then inl FileNotFoundError
       else @pickle_load toy content).

(** The data file alone. *)
Definition fresh_files : gmap string node :=
  {[ csv_path := File "two rows" ]}.

(** The data file and a saved forest. *)
Definition cached_files : gmap string node :=
  <[ filename := File "forest" ]> fresh_files.

(** The data file and a model file that holds something else. *)
Definition stale_files : gmap string node :=
  <[ filename := File "a dict" ]> fresh_files.

(** The data file and a model file whose unpickling opens a missing file. *)
Definition reduce_files : gmap string node :=
  <[ filename := File "open missing" ]> fresh_files.

(** The split of the two-row table by the stand-in. *)
Definition toy_parts : frame * frame * frame * frame :=
  match @split toy normalized_two_rows with
  | inr parts => parts
  | inl _ => ([], [], [], [])
  end.

Definition toy_X_train : frame := fst (fst (fst toy_parts)).
Definition toy_X_test : frame := snd (fst (fst toy_parts)).
Definition toy_y_train : frame := snd (fst toy_parts).
Definition toy_y_test : frame := snd toy_parts.

(** The files after the stand-in's tuner has been created and has searched. *)
Definition searched (f : gmap string node) : gmap string node :=
  <["./model/random_forest/trial_0/trial.json" := File "{}"]>
    (<["./model/random_forest/oracle.json" := File "{}"]> f).

End Example.

(** * Properties *)

(** ** Column statistics *)

Section StatsFacts.

Import Stats.

#[local] Open Scope R_scope.

Lemma sum_list_scale (k : R) xs :
  sum_list (map (fun x => x * k) xs) = sum_list xs * k.
Proof. induction xs as [|x xs IH]; simpl; [lra | rewrite IH; lra]. Qed.

Lemma sum_list_shift (m : R) xs :
  sum_list (map (fun x => x - m) xs) = sum_list xs - INR (length xs) * m.
Proof.
  induction xs as [|x xs IH]; [simpl; lra|].
  change (length (x :: xs)) with (S (length xs)). rewrite S_INR.
  simpl. rewrite IH. lra.
Qed.

Lemma sum_list_affine (m k : R) xs :
  sum_list (map (fun x => (x - m) * k) xs) =
  (sum_list xs - INR (length xs) * m) * k.
Proof.
  rewrite <- sum_list_shift, <- sum_list_scale, map_map. reflexivity.
Qed.

Lemma sum_sq_nonneg m xs : 0 <= sum_sq m xs.
Proof.
  unfold sum_sq. induction xs as [|x xs IH]; simpl; [lra|].
  pose proof (Rle_0_sqr (x - m)) as Hsq. unfold Rsqr in Hsq. lra.
Qed.

Lemma sum_sq_affine (m k : R) xs :
  sum_sq 0 (map (fun x => (x - m) * k) xs) = sum_sq m xs * (k * k).
Proof.
  unfold sum_sq. induction xs as [|x xs IH]; simpl; [lra|].
  rewrite IH. lra.
Qed.

Lemma length_zscore xs : length (zscore xs) = length xs.
Proof. unfold zscore. apply length_map. Qed.

Lemma INR_length_pos (xs : column) : (2 <= length xs)%nat -> 1 < INR (length xs).
Proof. intros H. apply (lt_INR 1). lia. Qed.

Lemma variance_nonneg xs : (2 <= length xs)%nat -> 0 <= variance xs.
Proof.
  intros H. unfold variance.
  apply Rmult_le_pos; [apply sum_sq_nonneg|].
  apply Rlt_le, Rinv_0_lt_compat. pose proof (INR_length_pos xs H). lra.
Qed.

Lemma std_sq xs : (2 <= length xs)%nat -> std xs * std xs = variance xs.
Proof. intros H. apply sqrt_sqrt, variance_nonneg, H. Qed.

(** The z-scores of a column have mean zero. *)
Lemma mean_zscore xs :
  (2 <= length xs)%nat -> std xs <> 0 -> mean (zscore xs) = 0.
Proof.
  intros Hlen Hstd. unfold mean at 1. rewrite length_zscore.
  unfold zscore.
  replace (map (fun x => (x - mean xs) / std xs) xs)
    with (map (fun x => (x - mean xs) * / std xs) xs) by reflexivity.
  rewrite sum_list_affine.
  pose proof (INR_length_pos xs Hlen) as Hn.
  unfold mean. field. split; lra.
Qed.

(** The z-scores of a column have sample variance one. *)
Lemma variance_zscore xs :
  (2 <= length xs)%nat -> std xs <> 0 -> variance (zscore xs) = 1.
Proof.
  intros Hlen Hstd. unfold variance at 1.
  rewrite (mean_zscore xs Hlen Hstd), length_zscore.
  unfold zscore.
  replace (map (fun x => (x - mean xs) / std xs) xs)
    with (map (fun x => (x - mean xs) * / std xs) xs) by reflexivity.
  rewrite sum_sq_affine.
  pose proof (INR_length_pos xs Hlen) as Hn.
  pose proof (std_sq xs Hlen) as Hsq.
  assert (Hv : sum_sq (mean xs) xs = std xs * std xs * (INR (length xs) - 1)).
  { rewrite Hsq. unfold variance. field. lra. }
  rewrite Hv. field. split; lra.
Qed.

End StatsFacts.

(** ** Data frames *)

Section PandasFacts.

Import Stats Pandas.

(** [(ds - ds.mean()) / ds.std()] is the z-score of every column. *)
Lemma zscore_frame (ds : frame) :
  frame_div (frame_sub ds (frame_mean ds)) (frame_std ds) =
  map (fun c => (fst c, zscore (snd c))) ds.
Proof.
  unfold frame_div, frame_sub, frame_mean, frame_std.
  induction ds as [|[c xs] ds IH]; [reflexivity|].
  cbn [map zip_with fst snd]. f_equal; [|exact IH].
  unfold zscore. rewrite map_map. reflexivity.
Qed.

Lemma get_column_map (f : column -> column) (c : string) (ds : frame) :
  get_column c (map (fun col => (fst col, f (snd col))) ds) =
  option_map f (get_column c ds).
Proof.
  induction ds as [|[c' xs] ds IH]; [reflexivity|].
  cbn [map get_column fst snd]. destruct (String.eqb c c'); [reflexivity|exact IH].
Qed.

Lemma get_column_set_eq (c : string) (xs : column) (ds : frame) :
  get_column c (set_column c xs ds) = Some xs.
Proof.
  induction ds as [|[c' ys] ds IH]; cbn [set_column get_column].
  - rewrite String.eqb_refl. reflexivity.
  - destruct (String.eqb c c') eqn:E; cbn [get_column]; rewrite E; [reflexivity|exact IH].
Qed.

Lemma get_column_set_ne (c c' : string) (xs : column) (ds : frame) :
  c <> c' -> get_column c (set_column c' xs ds) = get_column c ds.
Proof.
  intros Hne. induction ds as [|[d ys] ds IH]; cbn [set_column get_column].
  - apply String.eqb_neq in Hne. rewrite Hne. reflexivity.
  - destruct (String.eqb c' d) eqn:E; cbn [get_column].
    + apply String.eqb_eq in E. subst d.
      apply String.eqb_neq in Hne. rewrite Hne. reflexivity.
    + destruct (String.eqb c d); [reflexivity|exact IH].
Qed.

End PandasFacts.

(** ** Normalisation, lines 15-29 *)

Module Normalization.

Import Stats Pandas Py Lib Train Example.

Lemma restored_columns_cases (c : string) :
  c ∈ restored_columns ->
  c = "Class" \/ c = "Length" \/ c = "TFIDF_H" \/ c = "TFIDF_S" \/
  c = "TFIDF_J" \/ c = "Z_Length".
Proof.
  unfold restored_columns. rewrite !elem_of_cons, elem_of_nil. tauto.
Qed.

(** What a successful [normalize] returns: the z-scored frame with the six
    columns of the input assigned over it, in the order of lines 18-23. *)
Lemma normalize_inv (ds nds : frame) :
  normalize ds = inr nds ->
  exists x1 x2 x3 x4 x5 x6,
    get_column "Class" ds = Some x1 /\
    get_column "Length" ds = Some x2 /\
    get_column "TFIDF_H" ds = Some x3 /\
    get_column "TFIDF_S" ds = Some x4 /\
    get_column "TFIDF_J" ds = Some x5 /\
    get_column "Z_Length" ds = Some x6 /\
    nds =
      set_column "Z_Length" x6 (set_column "TFIDF_J" x5
        (set_column "TFIDF_S" x4 (set_column "TFIDF_H" x3
          (set_column "Length" x2 (set_column "Class" x1
            (map (fun c => (fst c, zscore (snd c))) ds)))))).
Proof.
  unfold normalize. rewrite zscore_frame. unfold restore, mbind, result_bind, mret, result_ret.
  destruct (get_column "Class" ds) as [x1|]; [|discriminate].
  destruct (get_column "Length" ds) as [x2|]; [|discriminate].
  destruct (get_column "TFIDF_H" ds) as [x3|]; [|discriminate].
  destruct (get_column "TFIDF_S" ds) as [x4|]; [|discriminate].
  destruct (get_column "TFIDF_J" ds) as [x5|]; [|discriminate].
  destruct (get_column "Z_Length" ds) as [x6|]; [|discriminate].
  intros [= <-]. exists x1, x2, x3, x4, x5, x6. repeat split; reflexivity.
Qed.

(** [normalize] returns exactly when the six columns are there. *)
Lemma normalize_succeeds (ds : frame) :
  (exists nds, normalize ds = inr nds) <->
  (forall c, c ∈ restored_columns -> is_Some (get_column c ds)).
Proof.
  split.
  - intros [nds H]. apply normalize_inv in H.
    destruct H as (x1 & x2 & x3 & x4 & x5 & x6 & H1 & H2 & H3 & H4 & H5 & H6 & _).
    intros c Hc. apply restored_columns_cases in Hc.
    destruct Hc as [->|[->|[->|[->|[->| ->]]]]]; eauto.
  - intros H.
    assert (Hin : forall c, c ∈ restored_columns -> exists xs, get_column c ds = Some xs).
    { intros c Hc. destruct (H c Hc) as [xs Hxs]. eauto. }
    unfold restored_columns in Hin.
    destruct (Hin "Class") as [x1 H1]; [repeat constructor|].
    destruct (Hin "Length") as [x2 H2]; [repeat constructor|].
    destruct (Hin "TFIDF_H") as [x3 H3]; [repeat constructor|].
    destruct (Hin "TFIDF_S") as [x4 H4]; [repeat constructor|].
    destruct (Hin "TFIDF_J") as [x5 H5]; [repeat constructor|].
    destruct (Hin "Z_Length") as [x6 H6]; [repeat constructor|].
    unfold normalize, restore, mbind, result_bind, mret, result_ret.
    rewrite H1, H2, H3, H4, H5, H6. eauto.
Qed.

(** After a successful [normalize], a column the script assigns holds the
    input's values. *)
Lemma normalize_restored (ds nds : frame) (c : string) :
  normalize ds = inr nds -> c ∈ restored_columns ->
  is_Some (get_column c ds) /\ get_column c nds = get_column c ds.
Proof.
  intros H Hc. apply normalize_inv in H.
  destruct H as (x1 & x2 & x3 & x4 & x5 & x6 & H1 & H2 & H3 & H4 & H5 & H6 & ->).
  apply restored_columns_cases in Hc.
  destruct Hc as [->|[->|[->|[->|[->| ->]]]]];
    (split; [eauto|]);
    repeat first [ rewrite get_column_set_eq; congruence
                 | rewrite get_column_set_ne by discriminate ].
Qed.

(** After a successful [normalize], any other column holds the z-scores of
    the input's column. *)
Lemma normalize_other (ds nds : frame) (c : string) :
  normalize ds = inr nds -> c ∉ restored_columns ->
  get_column c nds = option_map zscore (get_column c ds).
Proof.
  intros H Hc. apply normalize_inv in H.
  destruct H as (x1 & x2 & x3 & x4 & x5 & x6 & _ & _ & _ & _ & _ & _ & ->).
  unfold restored_columns in Hc.
  rewrite !not_elem_of_cons in Hc.
  destruct Hc as (? & ? & ? & ? & ? & ? & _).
  rewrite !get_column_set_ne by assumption.
  apply get_column_map.
Qed.

(** C9.  The six columns that lines 18-23 assign hold, in the normalised
    dataset, the values they have in the input: normalisation returns exactly
    when the input has all six, and then each of them is the input's column
    unchanged.  In particular the label [y] taken on line 26, which is what
    [train_test_split] receives and cuts into the training and test labels,
    is the input's [Class] column. *)
Theorem restored_columns_are_raw `{L : Library} (ds : frame) :
  ((exists nds, normalize ds = inr nds) <->
   (forall c, c ∈ restored_columns -> is_Some (get_column c ds))) /\
  (forall nds, normalize ds = inr nds ->
     (forall c, c ∈ restored_columns ->
        is_Some (get_column c ds) /\ get_column c nds = get_column c ds) /\
     (exists raw,
        get_column "Class" ds = Some raw /\
        label_frame nds = inr [("Class", raw)] /\
        split nds =
          (X ← feature_frame nds;
           train_test_split X [("Class", raw)] test_size seed))).
Proof.
  split; [apply normalize_succeeds|].
  intros nds H. split.
  - intros c Hc. apply (normalize_restored ds nds c H Hc).
  - destruct (normalize_restored ds nds "Class" H) as [[raw Hraw] Heq];
      [repeat constructor|].
    exists raw. split; [exact Hraw|].
    assert (Hy : label_frame nds = inr [("Class", raw)]).
    { unfold label_frame, select_column. rewrite Heq, Hraw. reflexivity. }
    split; [exact Hy|].
    unfold split. rewrite Hy. reflexivity.
Qed.

Lemma restored_columns_are_raw_witness :
  get_column "Class" normalized_two_rows = Some [0; 1]%R /\
  get_column "Z_Length" normalized_two_rows = Some [-1; 1]%R.
Proof.
  destruct (restored_columns_are_raw (L := toy) two_rows) as [_ H].
  destruct (H normalized_two_rows eq_refl) as [Hcols _].
  split.
  - destruct (Hcols "Class") as [_ ->]; [repeat constructor|reflexivity].
  - destruct (Hcols "Z_Length") as [_ ->]; [repeat constructor|reflexivity].
Defined.

(** C1, as amended.  In exact real arithmetic, every column other than
    Class, Length, TFIDF_H, TFIDF_S, TFIDF_J and Z_Length that has at least
    two rows and a standard deviation other than zero holds its z-scores
    after normalisation, and these have mean zero and sample variance
    ([ddof = 1], the one [std] uses) one. *)
Theorem other_columns_standardized (ds nds : frame) (c : string) (xs : column) :
  normalize ds = inr nds ->
  c ∉ restored_columns ->
  get_column c ds = Some xs ->
  2 <= length xs ->
  std xs <> 0%R ->
  get_column c nds = Some (zscore xs) /\
  mean (zscore xs) = 0%R /\
  variance (zscore xs) = 1%R.
Proof.
  intros Hn Hc Hxs Hlen Hstd. split; [|split].
  - rewrite (normalize_other ds nds c Hn Hc), Hxs. reflexivity.
  - apply mean_zscore; assumption.
  - apply variance_zscore; assumption.
Qed.

Lemma variance_one_two : variance [1; 2]%R = (1 / 2)%R.
Proof.
  unfold variance, sum_sq, mean, sum_list. cbn [map fold_right length INR].
  field.
Qed.

Lemma other_columns_standardized_witness :
  get_column "F" normalized_two_rows = Some (zscore [1; 2]%R) /\
  mean (zscore [1; 2]%R) = 0%R /\
  variance (zscore [1; 2]%R) = 1%R.
Proof.
  apply (other_columns_standardized two_rows normalized_two_rows "F" [1; 2]%R).
  - reflexivity.
  - unfold restored_columns. rewrite !not_elem_of_cons.
    repeat split; try discriminate. apply not_elem_of_nil.
  - reflexivity.
  - simpl. lia.
  - unfold std. rewrite variance_one_two.
    apply Rgt_not_eq, sqrt_lt_R0. lra.
Defined.

(** C1 as the specification states it fails on the column [Class]: on the
    two-row table the normalised dataset holds the labels 0 and 1 themselves,
    whose mean and sample variance are both one half. *)
Lemma class_column_not_standardized :
  normalize two_rows = inr normalized_two_rows /\
  get_column "Class" normalized_two_rows = Some [0; 1]%R /\
  mean [0; 1]%R = (1 / 2)%R /\ mean [0; 1]%R <> 0%R /\
  variance [0; 1]%R = (1 / 2)%R /\ variance [0; 1]%R <> 1%R.
Proof.
  assert (Hm : mean [0; 1]%R = (1 / 2)%R).
  { unfold mean, sum_list. cbn [fold_right length INR]. field. }
  assert (Hv : variance [0; 1]%R = (1 / 2)%R).
  { unfold variance, sum_sq, mean, sum_list. cbn [map fold_right length INR].
    field. }
  repeat split; try reflexivity; try assumption.
  - rewrite Hm. lra.
  - rewrite Hv. lra.
Qed.

End Normalization.

(** ** Running the script symbolically *)

Ltac unfold_script :=
  unfold Train.run, Train.main, Train.load_features, Train.normalize_stage,
    Train.split_stage, Train.best_model_stage, Train.evaluate_stage,
    Train.evaluate_model, Train.load_cached, Train.search_and_fit, Train.save.

Ltac unfold_monad :=
  unfold mbind, Py.M_bind, mret, Py.M_ret, Py.raise, Py.lift, Py.log, Py.print,
    Py.call_io, Py.call_rng, Py.try_except, Py.open_rb, Py.isfile, Py.open_wb,
    Py.write.

(** The world's fields after a chain of updates, and nothing else. *)
Ltac simp_world :=
  cbv beta iota zeta delta
    [fst snd Py.trace Py.fs Py.rng Py.argv Py.environ Py.stdout Py.add_trace
     Py.add_stdout Py.add_lines Py.set_fs Py.set_rng negb
     Py.is_FileNotFoundError];
  cbn [app].

(** One case split on the innermost outcome the goal still branches on. *)
Ltac exec_step :=
  match goal with
  | |- context [match ?x with _ => _ end] =>
      lazymatch x with
      | context [match _ with _ => _ end] => fail
      | _ => destruct x eqn:?
      end
  end.

Ltac exec_script :=
  unfold_script; unfold_monad; simp_world; repeat (exec_step; simp_world).

(** Membership in a list that is written out. *)
Ltac not_in_list H :=
  repeat (apply elem_of_cons in H as [H|H]; [discriminate H|]);
  apply elem_of_nil in H; destruct H.

Ltac in_list :=
  solve [repeat first [apply list_elem_of_here | apply list_elem_of_further]].


(** The same on a world that is a variable: lists are left as they are. *)
Ltac simp_fields :=
  cbn [fst snd Py.trace Py.fs Py.rng Py.argv Py.environ Py.stdout
       Py.add_trace Py.add_stdout Py.add_lines Py.set_fs Py.set_rng negb
       Py.is_FileNotFoundError].

(** A world written as updates of a record, as the record. *)
Ltac norm_world :=
  cbv beta iota zeta delta
    [Py.trace Py.fs Py.rng Py.argv Py.environ Py.stdout Py.add_trace
     Py.add_stdout Py.add_lines Py.set_fs Py.set_rng].

Ltac exec_in_world :=
  unfold_monad; simp_fields; repeat (exec_step; simp_fields).

(** What the tuner's two calls leave of [path], from [tuner_keeps_off]. *)
Ltac tuner_facts Hk1 Hk2 :=
  repeat match goal with
  | H : Lib.SklearnTuner ?args ?f ?g ?a ?e = _ |- _ =>
      let Hoff := fresh "Hoff" in
      pose proof (Hk1 args f g a e) as Hoff; rewrite H in Hoff;
      cbn [fst snd] in Hoff; clear H
  | H : Lib.search ?t ?X ?y ?f ?g ?a ?e = _ |- _ =>
      let Hoff := fresh "Hoff" in
      pose proof (Hk2 t X y f g a e) as Hoff; rewrite H in Hoff;
      cbn [fst snd] in Hoff; clear H
  end.

(** ** The save, lines 99-101 *)

Module Save.

Import Stats Pandas Py Lib Train Example.

Lemma save_present `{L : Library} (best_model : forest) (w : world) content :
  fs w !! filename = Some (File content) -> save best_model w = (inr tt, w).
Proof.
  intros Hfile. unfold save, isfile, mbind, M_bind. rewrite Hfile. reflexivity.
Qed.

Lemma save_directory `{L : Library} (best_model : forest) (w : world) :
  fs w !! filename = Some Dir ->
  save best_model w =
    (inl IsADirectoryError, add_trace (EvSerialize filename) w).
Proof.
  intros Hfile. unfold save, isfile, open_wb, log, mbind, M_bind.
  rewrite Hfile. cbn [negb fs add_trace]. rewrite Hfile. reflexivity.
Qed.

Lemma save_absent `{L : Library} (best_model : forest) (w : world) :
  fs w !! filename = None ->
  save best_model w =
    match pickle_dumps best_model with
    | inl err =>
        (inl err,
         set_fs (<[filename := File ""]> (fs w))
           (add_trace (EvSerialize filename) w))
    | inr data =>
        (inr tt,
         set_fs (<[filename := File data]> (fs w))
           (add_trace (EvSerialize filename) w))
    end.
Proof.
  intros Hfile. unfold save, isfile, open_wb, write, log, lift, mbind, M_bind.
  rewrite Hfile. cbn [negb fs add_trace set_fs]. rewrite Hfile.
  destruct (pickle_dumps best_model) as [err|data]; [reflexivity|].
  cbn [fs set_fs]. rewrite lookup_insert_eq, insert_insert_eq. reflexivity.
Qed.

Lemma run_serialized `{L : Library} f g a e :
  serialized (trace (run f g a e).2) = [] \/
  serialized (trace (run f g a e).2) = [filename].
Proof.
  exec_script; first [left; reflexivity | right; reflexivity].
Qed.

(** C3.  When [model.sav] is a file at the save, the save changes nothing:
    not the file, not any other.  The save changes the files only when
    nothing of that name exists, and then only that name, which gets the
    pickled model.  In every run at most one serialisation starts, and it is
    to [model.sav]. *)
Theorem model_written_only_if_absent `{L : Library} :
  (forall best_model w content,
     fs w !! filename = Some (File content) ->
     save best_model w = (inr tt, w)) /\
  (forall best_model w,
     fs (save best_model w).2 <> fs w -> fs w !! filename = None) /\
  (forall best_model w path,
     path <> filename ->
     fs (save best_model w).2 !! path = fs w !! path) /\
  (forall best_model w data,
     fs w !! filename = None ->
     pickle_dumps best_model = inr data ->
     save best_model w =
       (inr tt,
        set_fs (<[filename := File data]> (fs w))
          (add_trace (EvSerialize filename) w))) /\
  (forall f g a e,
     serialized (trace (run f g a e).2) = [] \/
     serialized (trace (run f g a e).2) = [filename]).
Proof.
  split; [|split; [|split; [|split]]].
  - intros best_model w content. apply save_present.
  - intros best_model w Hchanged.
    destruct (fs w !! filename) as [[content|]|] eqn:Hfile; [| |reflexivity].
    + rewrite (save_present _ _ content Hfile) in Hchanged. contradiction.
    + rewrite (save_directory _ _ Hfile) in Hchanged. contradiction.
  - intros best_model w path Hpath.
    destruct (fs w !! filename) as [[content|]|] eqn:Hfile.
    + rewrite (save_present _ _ content Hfile). reflexivity.
    + rewrite (save_directory _ _ Hfile). reflexivity.
    + rewrite (save_absent _ _ Hfile).
      destruct (pickle_dumps best_model); cbn [snd fs set_fs];
        apply lookup_insert_ne; congruence.
  - intros best_model w data Hfile Hdata.
    rewrite (save_absent _ _ Hfile), Hdata. reflexivity.
  - apply @run_serialized.
Qed.

Lemma model_written_only_if_absent_witness :
  @save toy (default_params, true) (World cached_files 0 [] ∅ [] []) =
    (inr tt, World cached_files 0 [] ∅ [] []) /\
  @save toy (default_params, true) (World fresh_files 0 [] ∅ [] []) =
    (inr tt,
     World (<[filename := File "forest"]> fresh_files) 0 [] ∅ []
       [EvSerialize filename]).
Proof.
  destruct (@model_written_only_if_absent toy)
    as (Hpresent & _ & _ & Habsent & _).
  split.
  - apply (Hpresent (default_params, true)
             (World cached_files 0 [] ∅ [] []) "forest").
    vm_compute. reflexivity.
  - apply (Habsent (default_params, true)
             (World fresh_files 0 [] ∅ [] []) "forest");
      vm_compute; reflexivity.
Defined.

End Save.

(** ** The statements one by one, when the library calls return *)

Module Steps.

Import Stats Pandas Py Lib Train Example.

(** Sequencing after a computation that returns. *)
Lemma bind_ok {A B} (m : M A) (k : A -> M B) (w w' : world) (x : A) :
  m w = (inr x, w') -> (m ≫= k) w = k x w'.
Proof. intros H. unfold mbind, M_bind. rewrite H. reflexivity. Qed.

(** What [load_cached] does, by what [model.sav] names and what unpickling
    its content gives. *)
Lemma load_cached_exact `{L : Library} (w : world) :
  load_cached w =
    match fs w !! filename with
    | None => (inr PyNone, w)
    | Some Dir => (inl IsADirectoryError, w)
    | Some (File content) =>
        match pickle_load content with
        | inl FileNotFoundError => (inr PyNone, w)
        | outcome => (outcome, w)
        end
    end.
Proof.
  unfold load_cached. unfold_monad.
  destruct (fs w !! filename) as [[content|]|]; simp_fields; try reflexivity.
  destruct (pickle_load content) as [[]|obj]; reflexivity.
Qed.


(** The three ways to the search: no [model.sav], one that unpickles to
    something that is not a forest, one whose unpickling raises
    [FileNotFoundError]. *)
Lemma best_model_stage_fallback `{L : Library} X_train y_train w :
  fs w !! filename = None \/
  (exists content obj,
     fs w !! filename = Some (File content) /\
     pickle_load content = inr obj /\ needs_search obj = true) \/
  (exists content,
     fs w !! filename = Some (File content) /\
     pickle_load content = inl FileNotFoundError) ->
  best_model_stage X_train y_train w =
    search_and_fit X_train y_train (add_trace (EvLoadModel filename) w).
Proof.
  intros Hcase. unfold best_model_stage, mbind, M_bind, log.
  rewrite load_cached_exact. cbn [fs add_trace].
  destruct Hcase as [Hfile|[(content & obj & Hfile & Hobj & Hns)
                           |(content & Hfile & Hobj)]];
    rewrite Hfile; try rewrite Hobj; try reflexivity.
  destruct obj as [|m|cls]; try reflexivity. discriminate Hns.
Qed.

Lemma search_and_fit_ok `{L : Library} X_train y_train w model f' g' lines :
  searches X_train y_train (fs w) (rng w) (argv w) (environ w)
    model f' g' lines ->
  search_and_fit X_train y_train w =
    (inr model,
     World f' g' (argv w) (environ w) (stdout w ++ lines)
       (trace w ++ [EvSearch; EvFit])).
Proof.
  intros (t1 & f1 & g1 & lines1 & t2 & g2 & lines2 & hp & rest &
          Hnew & Hsearch & Hbest & Hfit & ->).
  destruct w as [f g a e out tr]. cbn [fs rng argv environ] in Hnew, Hsearch.
  unfold search_and_fit. unfold_monad. simp_fields.
  rewrite Hnew. simp_fields. rewrite Hsearch. simp_fields.
  rewrite Hbest. simp_fields. rewrite Hfit. norm_world.
  rewrite <- !app_assoc. reflexivity.
Qed.

Lemma evaluate_model_ok `{L : Library} X_test y_test model x_ y_true w report :
  evaluates model x_ y_true report ->
  evaluate_model X_test y_test model x_ y_true false w =
    (inr tt, add_lines report w).
Proof.
  intros (y_pred & tn & fp & fn & tp & recall & precision & f2 & pr_auc &
          Hp & Hcm & Hr & Hpr & Hf & Ha & ->).
  destruct w as [f g a e out tr].
  unfold evaluate_model, report_lines. unfold_monad. simp_fields.
  rewrite Hp, Hcm. simp_fields. rewrite Hr. simp_fields.
  rewrite Hpr. simp_fields. rewrite Hf. simp_fields. rewrite Ha.
  norm_world. rewrite <- !app_assoc. reflexivity.
Qed.

Lemma evaluate_stage_ok `{L : Library} model X_test y_test w report :
  evaluates model X_test y_test report ->
  evaluate_stage model X_test y_test w =
    (inr tt,
     World (fs w) (rng w) (argv w) (environ w)
       (stdout w ++ header_line :: report) (trace w ++ [EvEvaluate])).
Proof.
  intros Hev. unfold evaluate_stage, mbind, M_bind, log, print.
  rewrite (evaluate_model_ok _ _ _ _ _ _ _ Hev).
  destruct w as [f g a e out tr]. unfold header_line. norm_world.
  rewrite <- app_assoc. reflexivity.
Qed.

(** A run whose data file is read, normalised and split goes on from the
    load of the cached model. *)
Lemma run_prepared `{L : Library} f g a e X_train X_test y_train y_test :
  prepares f (X_train, X_test, y_train, y_test) ->
  run f g a e =
    (best_model ← best_model_stage X_train y_train;
     evaluate_stage best_model X_test y_test;;
     save best_model)
      (World f g a e [] [EvReadCsv csv_path; EvNormalize; EvSplit]).
Proof.
  intros (content & ds & normalized_ds & Hcsv & Hds & Hn & Hs).
  assert (H1 : load_features (World f g a e [] []) =
               (inr ds, World f g a e [] [EvReadCsv csv_path])).
  { unfold load_features. unfold_monad. simp_world. rewrite Hcsv, Hds.
    reflexivity. }
  assert (H2 : normalize_stage ds (World f g a e [] [EvReadCsv csv_path]) =
               (inr normalized_ds,
                World f g a e [] [EvReadCsv csv_path; EvNormalize])).
  { unfold normalize_stage. unfold_monad. simp_world. rewrite Hn.
    reflexivity. }
  assert (H3 : split_stage normalized_ds
                 (World f g a e [] [EvReadCsv csv_path; EvNormalize]) =
               (inr (X_train, X_test, y_train, y_test),
                World f g a e [] [EvReadCsv csv_path; EvNormalize; EvSplit])).
  { unfold split_stage. unfold_monad. simp_world. rewrite Hs. reflexivity. }
  unfold run, main.
  rewrite (bind_ok _ _ _ _ _ H1), (bind_ok _ _ _ _ _ H2),
    (bind_ok _ _ _ _ _ H3).
  reflexivity.
Qed.



(** A model file that holds something else, and every library call returns:
    the search, the fit and the evaluation run on the fresh forest, and the
    save finds the file and writes nothing. *)
Lemma run_stale `{L : Library} f g a e X_train X_test y_train y_test
    content obj model f' g' lines report content' :
  prepares f (X_train, X_test, y_train, y_test) ->
  f !! filename = Some (File content) ->
  pickle_load content = inr obj ->
  needs_search obj = true ->
  searches X_train y_train f g a e model f' g' lines ->
  evaluates model X_test y_test report ->
  f' !! filename = Some (File content') ->
  run f g a e =
    (inr tt,
     World f' g' a e (lines ++ header_line :: report)
       [EvReadCsv csv_path; EvNormalize; EvSplit; EvLoadModel filename;
        EvSearch; EvFit; EvEvaluate]).
Proof.
  intros Hprep Hfile Hobj Hns Hsearch Hev Hfile'.
  rewrite (run_prepared _ _ _ _ _ _ _ _ Hprep). unfold mbind, M_bind.
  rewrite best_model_stage_fallback by (right; left; eauto).
  norm_world. cbn [app].
  rewrite (search_and_fit_ok X_train y_train
             (World f g a e []
                [EvReadCsv csv_path; EvNormalize; EvSplit;
                 EvLoadModel filename])
             model f' g' lines Hsearch).
  rewrite (evaluate_stage_ok _ _ _ _ _ Hev). norm_world. cbn [app].
  rewrite (Save.save_present _ _ content') by exact Hfile'. reflexivity.
Qed.

(** The stand-in's library calls return on the two-row table. *)
Lemma toy_prepares (f : gmap string node) :
  f !! csv_path = Some (File "two rows") -> @prepares toy f (toy_X_train, toy_X_test, toy_y_train, toy_y_test).
Proof.
  intros Hcsv. exists "two rows", two_rows, normalized_two_rows.
  repeat split; [exact Hcsv|reflexivity..].
Qed.

Lemma toy_searches (f : gmap string node) (g : N) a e :
  @searches toy toy_X_train toy_y_train f g a e
    (default_params, true) (searched f) (N.succ (N.succ g))
    [[PStr "Search: Running Trial #1"]].
Proof.
  exists tt, (<["./model/random_forest/oracle.json" := File "{}"]> f), g, [],
    tt, (N.succ g), [[PStr "Search: Running Trial #1"]], tt, [].
  repeat split; reflexivity.
Qed.

Lemma toy_evaluates (fitted : bool) :
  fitted = true ->
  @evaluates toy (default_params, fitted) toy_X_test toy_y_test
    (report_lines 1 0 0 1 1 1 1 1).
Proof.
  intros ->. exists [3%R], 1%Z, 0%Z, 0%Z, 1%Z, 1%R, 1%R, 1%R, 1%R.
  repeat split; reflexivity.
Qed.

End Steps.

(** ** The order of the statements *)

Module Order.

Import Stats Pandas Py Lib Train Example.







End Order.

(** ** The cached model, lines 67-74 *)

Module Cache.

Import Stats Pandas Py Lib Train Example.

(** The condition of line 74 is false for a forest and for nothing else. *)
Lemma needs_search_false `{L : Library} (obj : pyobj forest) :
  needs_search obj = false <-> exists m, obj = PyForest m.
Proof.
  destruct obj as [|m|cls]; cbn; split; try discriminate; eauto.
  all: intros [m' Hm]; discriminate Hm.
Qed.

(** C2, as amended.  Among the runs that reach the load of the cached model,
    the search is skipped (evaluation starts and no search has started)
    exactly in those where [model.sav] is a file that unpickles, without
    raising, to an object whose type is [RandomForestClassifier]. *)
Theorem search_skipped_iff_cached_forest `{L : Library} f g a e :
  (EvEvaluate ∈ trace (run f g a e).2 /\ EvSearch ∉ trace (run f g a e).2) <->
  (EvLoadModel filename ∈ trace (run f g a e).2 /\
   exists content m,
     f !! filename = Some (File content) /\
     pickle_load content = inr (PyForest m)).
Proof.
  exec_script.
  all: split;
    [ intros [Hev Hns];
      first [ not_in_list Hev
            | exfalso; apply Hns; in_list
            | split; [in_list | eauto] ]
    | intros [Hld (c' & m' & Hc & Hm)];
      first [ not_in_list Hld
            | congruence
            | split; [in_list | intros Hs; not_in_list Hs] ] ].
Qed.

Lemma search_skipped_iff_cached_forest_witness :
  EvEvaluate ∈ trace (@run toy cached_files 0 [] ∅).2 /\
  EvSearch ∉ trace (@run toy cached_files 0 [] ∅).2.
Proof.
  apply (@search_skipped_iff_cached_forest toy cached_files 0%N [] ∅).
  split.
  - vm_compute. in_list.
  - exists "forest", (default_params, true).
    split; vm_compute; reflexivity.
Defined.

(** C2 as the specification states it fails: in this run [model.sav] exists
    and evaluation is reached, and the search is not skipped, because the
    file holds an object of another class. *)
Lemma existing_file_is_not_enough :
  stale_files !! filename = Some (File "a dict") /\
  EvEvaluate ∈ trace (@run toy stale_files 0 [] ∅).2 /\
  EvSearch ∈ trace (@run toy stale_files 0 [] ∅).2.
Proof.
  split; [vm_compute; reflexivity|].
  assert (Htr : trace (@run toy stale_files 0 [] ∅).2 =
    [EvReadCsv csv_path; EvNormalize; EvSplit; EvLoadModel filename;
     EvSearch; EvFit; EvEvaluate]) by (vm_compute; reflexivity).
  rewrite Htr. split; in_list.
Qed.

(** C4, as amended.  The one handler of the script catches
    [FileNotFoundError] anywhere in [pickle.load(open(filename, 'rb'))]:
    when [model.sav] does not exist and also when unpickling an existing
    file raises it; nothing else is caught there (a directory of that name,
    or any other exception of the unpickling, raises to the caller).  After
    the handler the search runs: the outcome of the statement is the outcome
    of creating the tuner, searching, and fitting the forest built from the
    first best entry, and an exception of the tuner raises to the caller.
    The same [FileNotFoundError] is not handled elsewhere (a missing data
    file ends the run), nor is a data file that does not parse or a dataset
    without the column [Class]; and the first exception of any statement is
    the outcome of the run, in the world as the statement left it: no later
    statement runs. *)
Theorem only_file_not_found_is_handled `{L : Library} :
  (forall w,
     load_cached w =
       match fs w !! filename with
       | None => (inr PyNone, w)
       | Some Dir => (inl IsADirectoryError, w)
       | Some (File content) =>
           match pickle_load content with
           | inl FileNotFoundError => (inr PyNone, w)
           | outcome => (outcome, w)
           end
       end) /\
  (forall X_train y_train w model f' g' lines,
     fs w !! filename = None \/
     (exists content,
        fs w !! filename = Some (File content) /\
        pickle_load content = inl FileNotFoundError) ->
     searches X_train y_train (fs w) (rng w) (argv w) (environ w)
       model f' g' lines ->
     best_model_stage X_train y_train w =
       (inr model,
        World f' g' (argv w) (environ w) (stdout w ++ lines)
          (trace w ++ [EvLoadModel filename; EvSearch; EvFit]))) /\
  (forall X_train y_train w err f1 g1 lines1,
     fs w !! filename = None ->
     SklearnTuner tuner_arguments (fs w) (rng w) (argv w) (environ w) =
       (inl err, f1, g1, lines1) ->
     best_model_stage X_train y_train w =
       (inl err,
        World f1 g1 (argv w) (environ w) (stdout w ++ lines1)
          (trace w ++ [EvLoadModel filename; EvSearch]))) /\
  (forall X_train y_train w content err,
     fs w !! filename = Some (File content) ->
     pickle_load content = inl err ->
     err <> FileNotFoundError ->
     best_model_stage X_train y_train w =
       (inl err, add_trace (EvLoadModel filename) w)) /\
  (forall f g a e,
     f !! csv_path = None ->
     run f g a e =
       (inl FileNotFoundError, World f g a e [] [EvReadCsv csv_path])) /\
  (forall f g a e content err,
     f !! csv_path = Some (File content) ->
     read_csv content = inl err ->
     run f g a e = (inl err, World f g a e [] [EvReadCsv csv_path])) /\
  (forall f g a e content ds,
     f !! csv_path = Some (File content) ->
     read_csv content = inr ds ->
     get_column "Class" ds = None ->
     run f g a e =
       (inl (KeyError "Class"),
        World f g a e [] [EvReadCsv csv_path; EvNormalize])) /\
  (forall w,
     match load_features w with
     | (inl err, w1) => main w = (inl err, w1)
     | (inr ds, w1) =>
       match normalize_stage ds w1 with
       | (inl err, w2) => main w = (inl err, w2)
       | (inr normalized_ds, w2) =>
         match split_stage normalized_ds w2 with
         | (inl err, w3) => main w = (inl err, w3)
         | (inr (X_train, X_test, y_train, y_test), w3) =>
           match best_model_stage X_train y_train w3 with
           | (inl err, w4) => main w = (inl err, w4)
           | (inr best_model, w4) =>
             match evaluate_stage best_model X_test y_test w4 with
             | (inl err, w5) => main w = (inl err, w5)
             | (inr _, w5) => main w = save best_model w5
             end
           end
         end
       end
     end).
Proof.
  split; [|split; [|split; [|split; [|split; [|split; [|split]]]]]].
  - apply @Steps.load_cached_exact.
  - intros X_train y_train w model f' g' lines Hload Hsearch.
    rewrite Steps.best_model_stage_fallback by tauto.
    rewrite (Steps.search_and_fit_ok X_train y_train
               (add_trace (EvLoadModel filename) w) model f' g' lines)
      by exact Hsearch.
    cbn [argv environ stdout trace add_trace]. rewrite <- app_assoc.
    reflexivity.
  - intros X_train y_train w err f1 g1 lines1 Hfile Hnew.
    rewrite Steps.best_model_stage_fallback by (left; exact Hfile).
    destruct w as [f g a e out tr]. cbn [fs rng argv environ] in Hnew.
    unfold search_and_fit. unfold_monad. simp_fields. rewrite Hnew.
    norm_world. rewrite <- app_assoc. reflexivity.
  - intros X_train y_train w content err Hfile Herr Hne.
    unfold best_model_stage, mbind, M_bind, log.
    rewrite Steps.load_cached_exact. cbn [fs add_trace].
    rewrite Hfile, Herr. destruct err; try reflexivity. contradiction.
  - intros f g a e Hcsv. unfold run, main, load_features.
    unfold_monad. simp_world. rewrite Hcsv. reflexivity.
  - intros f g a e content err Hcsv Herr. unfold run, main, load_features.
    unfold_monad. simp_world. rewrite Hcsv, Herr. reflexivity.
  - intros f g a e content ds Hcsv Hds Hclass.
    assert (Hn : normalize ds = inl (KeyError "Class")).
    { unfold normalize, restore. rewrite Hclass. reflexivity. }
    unfold run, main, load_features, normalize_stage.
    unfold_monad. simp_world. rewrite Hcsv, Hds, Hn. reflexivity.
  - intros w. unfold main, mbind, M_bind.
    destruct (load_features w) as [[err|ds] w1]; [reflexivity|].
    destruct (normalize_stage ds w1) as [[err|normalized_ds] w2]; [reflexivity|].
    destruct (split_stage normalized_ds w2)
      as [[err|[[[X_train X_test] y_train] y_test]] w3]; [reflexivity|].
    destruct (best_model_stage X_train y_train w3) as [[err|best_model] w4];
      [reflexivity|].
    destruct (evaluate_stage best_model X_test y_test w4) as [[err|[]] w5];
      reflexivity.
Qed.

Lemma only_file_not_found_is_handled_witness :
  @best_model_stage toy toy_X_train toy_y_train
      (World fresh_files 0 [] ∅ [] []) =
    (inr (default_params, true),
     World (searched fresh_files) 2 [] ∅
       ([] ++ [[PStr "Search: Running Trial #1"]])
       ([] ++ [EvLoadModel filename; EvSearch; EvFit])) /\
  @best_model_stage toy toy_X_train toy_y_train
      (World (<[filename := File ""]> fresh_files) 0 [] ∅ [] []) =
    (inl (OtherError "EOFError"),
     add_trace (EvLoadModel filename)
       (World (<[filename := File ""]> fresh_files) 0 [] ∅ [] [])) /\
  @run toy {[ csv_path := File "no class" ]} 0 [] ∅ =
    (inl (KeyError "Class"),
     World {[ csv_path := File "no class" ]} 0 [] ∅ []
       [EvReadCsv csv_path; EvNormalize]).
Proof.
  destruct (@only_file_not_found_is_handled toy)
    as (_ & Hfallback & _ & Herror & _ & _ & Hcolumn & _).
  split; [|split].
  - apply (Hfallback toy_X_train toy_y_train (World fresh_files 0 [] ∅ [] [])
             (default_params, true) (searched fresh_files) 2%N
             [[PStr "Search: Running Trial #1"]]).
    + left. reflexivity.
    + apply (Steps.toy_searches fresh_files 0%N).
  - apply (Herror toy_X_train toy_y_train
             (World (<[filename := File ""]> fresh_files) 0 [] ∅ [] []) "").
    + reflexivity.
    + reflexivity.
    + discriminate.
  - apply (Hcolumn _ 0%N [] ∅ "no class" no_class); vm_compute; reflexivity.
Defined.

(** C4 as the specification states it fails: here [model.sav] exists, its
    unpickling raises [FileNotFoundError], and that failure is handled like a
    missing file: the load gives [None] and the run goes on to search and
    ends normally. *)
Lemma unpickling_failure_is_handled_too :
  reduce_files !! filename = Some (File "open missing") /\
  @pickle_load toy_reduce "open missing" = inl FileNotFoundError /\
  @load_cached toy_reduce (World reduce_files 0 [] ∅ [] []) =
    (inr PyNone, World reduce_files 0 [] ∅ [] []) /\
  (@run toy_reduce reduce_files 0 [] ∅).1 = inr tt /\
  EvSearch ∈ trace (@run toy_reduce reduce_files 0 [] ∅).2.
Proof.
  split; [vm_compute; reflexivity|]. split; [reflexivity|].
  split; [vm_compute; reflexivity|]. split; [vm_compute; reflexivity|].
  assert (Htr : trace (@run toy_reduce reduce_files 0 [] ∅).2 =
    [EvReadCsv csv_path; EvNormalize; EvSplit; EvLoadModel filename;
     EvSearch; EvFit; EvEvaluate]) by (vm_compute; reflexivity).
  rewrite Htr. in_list.
Qed.

(** C8.  Let [model.sav] be a file that unpickles to an object that is not a
    [RandomForestClassifier], and let the tuner keep its own files away from
    [model.sav].  Then in every run the file is the same at the end, and no
    serialisation is ever started; a run that reaches the load starts the
    search; and a run that ends normally has searched, fitted and evaluated,
    and has not serialised.  When every library call returns, the run ends
    normally having created the tuner, searched, fitted the forest built from
    the first best entry and printed the report of that forest on the test
    set, with the files as the search left them: the retrained model is
    dropped. *)
Theorem stale_model_is_retrained_not_saved `{L : Library}
    f g a e (content : string) (obj : pyobj forest) :
  tuner_keeps_off filename ->
  f !! filename = Some (File content) ->
  pickle_load content = inr obj ->
  needs_search obj = true ->
  fs (run f g a e).2 !! filename = Some (File content) /\
  (forall path, EvSerialize path ∉ trace (run f g a e).2) /\
  (EvLoadModel filename ∈ trace (run f g a e).2 ->
   EvSearch ∈ trace (run f g a e).2) /\
  ((run f g a e).1 = inr tt ->
   trace (run f g a e).2 =
     [EvReadCsv csv_path; EvNormalize; EvSplit; EvLoadModel filename;
      EvSearch; EvFit; EvEvaluate]) /\
  (forall X_train X_test y_train y_test model f' g' lines report,
     prepares f (X_train, X_test, y_train, y_test) ->
     searches X_train y_train f g a e model f' g' lines ->
     evaluates model X_test y_test report ->
     f' !! filename = Some (File content) /\
     run f g a e =
       (inr tt,
        World f' g' a e (lines ++ header_line :: report)
          [EvReadCsv csv_path; EvNormalize; EvSplit; EvLoadModel filename;
           EvSearch; EvFit; EvEvaluate])).
Proof.
  intros [Hk1 Hk2] Hfile Hobj Hns.
  split; [|split; [|split; [|split]]].
  5: { intros X_train X_test y_train y_test model f' g' lines report
         Hprep Hsearch Hev.
       assert (Hfile' : f' !! filename = Some (File content)).
       { destruct Hsearch as (t1 & f1 & g1 & lines1 & t2 & g2 & lines2 & hp &
                              rest & Hnew & Hsearch & _).
         pose proof (Hk1 tuner_arguments f g a e) as H1.
         rewrite Hnew in H1. cbn [fst snd] in H1.
         pose proof (Hk2 t1 X_train (values_ravel y_train) f1 g1 a e) as H2.
         rewrite Hsearch in H2. cbn [fst snd] in H2. congruence. }
       split; [exact Hfile'|].
       apply (Steps.run_stale f g a e X_train X_test y_train y_test
                content obj model f' g' lines report content);
         assumption. }
  all: destruct obj as [|m|cls]; cbn in Hns; try discriminate Hns; clear Hns.
  all: exec_script; tuner_facts Hk1 Hk2; try congruence.
  all: first
    [ intros path Hin; not_in_list Hin
    | intros Hin; first [in_list | not_in_list Hin]
    | intros Hok; first [reflexivity | discriminate Hok] ].
Qed.

Lemma toy_tuner_keeps_off : @tuner_keeps_off toy filename.
Proof.
  split; intros; cbn; apply lookup_insert_ne; discriminate.
Qed.

Lemma stale_model_is_retrained_not_saved_witness :
  fs (@run toy stale_files 0 [] ∅).2 !! filename = Some (File "a dict") /\
  (forall path, EvSerialize path ∉ trace (@run toy stale_files 0 [] ∅).2) /\
  EvSearch ∈ trace (@run toy stale_files 0 [] ∅).2 /\
  @run toy stale_files 0 [] ∅ =
    (inr tt,
     World (searched stale_files) 2 [] ∅
       ([[PStr "Search: Running Trial #1"]] ++
        header_line :: report_lines 1 0 0 1 1 1 1 1)
       [EvReadCsv csv_path; EvNormalize; EvSplit; EvLoadModel filename;
        EvSearch; EvFit; EvEvaluate]).
Proof.
  destruct (@stale_model_is_retrained_not_saved toy stale_files 0%N [] ∅
              "a dict" (PyOther "dict"))
    as (Hfile & Hnever & Hsearch & _ & Hrun).
  - exact toy_tuner_keeps_off.
  - vm_compute. reflexivity.
  - vm_compute. reflexivity.
  - reflexivity.
  - split; [exact Hfile|]. split; [exact Hnever|]. split.
    + apply Hsearch. vm_compute. in_list.
    + apply (Hrun toy_X_train toy_X_test toy_y_train toy_y_test
               (default_params, true) (searched stale_files) 2%N
               [[PStr "Search: Running Trial #1"]]
               (report_lines 1 0 0 1 1 1 1 1)).
      * apply Steps.toy_prepares. reflexivity.
      * apply (Steps.toy_searches stale_files 0%N).
      * apply Steps.toy_evaluates. reflexivity.
Defined.

End Cache.

(** ** Command line and environment *)

Module Interface.

Import Stats Pandas Py Lib Train Example.

Create HintDb blind.

Lemma blind_ret {A} (x : A) : blind (mret x).
Proof. intros w a e. reflexivity. Qed.


Lemma blind_raise {A} (err : exn) : blind (@raise A err).
Proof. intros w a e. reflexivity. Qed.

Lemma blind_lift {A} (r : result A) : blind (lift r).
Proof. intros w a e. reflexivity. Qed.

Lemma blind_log (ev : event) : blind (log ev).
Proof. intros w a e. reflexivity. Qed.

Lemma blind_print (line : list pval) : blind (print line).
Proof. intros w a e. reflexivity. Qed.


(** Reading the environment is not blind: the predicate tells scripts
    apart. *)
Lemma os_environ_get_not_blind : ~ blind (os_environ_get "HOME").
Proof.
  intros Hb.
  specialize (Hb (World ∅ 0 [] ∅ [] []) [] {[ "HOME" := "/root" ]}).
  unfold os_environ_get, with_args in Hb. cbn [environ fst] in Hb.
  injection Hb as Hb. rewrite lookup_singleton_eq, lookup_empty in Hb.
  discriminate Hb.
Qed.

Lemma sys_argv_not_blind : ~ blind sys_argv.
Proof.
  intros Hb.
  specialize (Hb (World ∅ 0 [] ∅ [] []) ["train.py"] ∅).
  unfold sys_argv, with_args in Hb. cbn [argv fst] in Hb.
  discriminate Hb.
Qed.

Lemma blind_call_rng{A} (f : lib_rng A) : blind (call_rng f).
Proof.
  intros w a e. unfold call_rng. cbn [rng with_args].
  destruct (f (rng w)) as [r g']. reflexivity.
Qed.


Lemma blind_open_rb (path : string) : blind (open_rb path).
Proof.
  intros w a e. unfold open_rb. cbn [fs with_args].
  destruct (fs w !! path) as [[content|]|]; reflexivity.
Qed.

Lemma blind_isfile (path : string) : blind (isfile path).
Proof.
  intros w a e. unfold isfile. cbn [fs with_args].
  destruct (fs w !! path) as [[content|]|]; reflexivity.
Qed.

Lemma blind_open_wb (path : string) : blind (open_wb path).
Proof.
  intros w a e. unfold open_wb. cbn [fs with_args].
  destruct (fs w !! path) as [[content|]|]; reflexivity.
Qed.

Lemma blind_write (path data : string) : blind (write path data).
Proof.
  intros w a e. unfold write. cbn [fs with_args].
  destruct (fs w !! path) as [[content|]|]; reflexivity.
Qed.

#[local] Hint Resolve blind_ret blind_raise blind_lift blind_log blind_print
  blind_call_rng blind_open_rb blind_isfile blind_open_wb blind_write : blind.



(** The same for a run with a cached forest, whatever the tuner does: the
    file is still there at the load, and the tuner is not called. *)
Section Cached.

Context `{L : Library} (content : string) (m : forest).

Hypothesis Hobj : pickle_load content = inr (PyForest m).









End Cached.





End Interface.

(** ** More on normalisation and the split, lines 15-29 *)

Module Shape.

Import Stats Pandas Py Lib Train Example.

Lemma zscored_shape (ds : frame) :
  map fst (map (fun c => (fst c, zscore (snd c))) ds) = map fst ds /\
  row_counts (map (fun c => (fst c, zscore (snd c))) ds) = row_counts ds.
Proof.
  unfold row_counts. rewrite !map_map. cbn [fst snd]. split; [reflexivity|].
  apply map_ext. intros c. apply length_zscore.
Qed.

(** Assigning a column of [ds] over a frame of the same shape keeps the
    shape. *)
Lemma set_column_shape (c : string) (xs : column) (ds nds : frame) :
  map fst nds = map fst ds -> row_counts nds = row_counts ds ->
  get_column c ds = Some xs ->
  map fst (set_column c xs nds) = map fst ds /\
  row_counts (set_column c xs nds) = row_counts ds.
Proof.
  revert nds. induction ds as [|[d ys] ds IH]; intros nds Hn Hr Hc;
    [discriminate Hc|].
  destruct nds as [|[d' zs] nds]; [discriminate Hn|].
  cbn in Hn, Hr, Hc. injection Hn as -> Hn. injection Hr as Hzs Hr.
  cbn [set_column]. destruct (String.eqb c d) eqn:E.
  - injection Hc as ->. cbn. rewrite Hn, Hr. split; reflexivity.
  - destruct (IH nds Hn Hr Hc) as [IHn IHr]. cbn. fold (row_counts ds).
    unfold row_counts in IHr. rewrite IHn, IHr, Hzs. split; reflexivity.
Qed.

Lemma normalize_shape (ds nds : frame) :
  normalize ds = inr nds ->
  map fst nds = map fst ds /\ row_counts nds = row_counts ds.
Proof.
  intros H. apply Normalization.normalize_inv in H.
  destruct H as (x1 & x2 & x3 & x4 & x5 & x6 & H1 & H2 & H3 & H4 & H5 & H6 & ->).
  destruct (zscored_shape ds) as [Hn0 Hr0].
  destruct (set_column_shape _ _ _ _ Hn0 Hr0 H1) as [Hn1 Hr1].
  destruct (set_column_shape _ _ _ _ Hn1 Hr1 H2) as [Hn2 Hr2].
  destruct (set_column_shape _ _ _ _ Hn2 Hr2 H3) as [Hn3 Hr3].
  destruct (set_column_shape _ _ _ _ Hn3 Hr3 H4) as [Hn4 Hr4].
  destruct (set_column_shape _ _ _ _ Hn4 Hr4 H5) as [Hn5 Hr5].
  exact (set_column_shape _ _ _ _ Hn5 Hr5 H6).
Qed.

(** X1.  Normalisation keeps the shape of the dataset: the normalised
    dataset has the columns of the input, in the same order, each with as
    many rows. *)
Theorem normalize_keeps_shape (ds nds : frame) :
  normalize ds = inr nds ->
  map fst nds = map fst ds /\
  row_counts nds = row_counts ds /\
  (forall n, Forall (fun c => length (snd c) = n) ds ->
             Forall (fun c => length (snd c) = n) nds).
Proof.
  intros H. destruct (normalize_shape ds nds H) as [Hnames Hrows].
  split; [exact Hnames|]. split; [exact Hrows|].
  intros n Hds.
  assert (Hall : forall l : frame,
    Forall (fun c => length (snd c) = n) l <-> Forall (eq n) (row_counts l)).
  { intros l. unfold row_counts. rewrite Forall_map.
    apply Forall_iff. intros c. cbn. split; congruence. }
  apply Hall. rewrite Hrows. apply Hall, Hds.
Qed.

Lemma normalize_keeps_shape_witness :
  map fst normalized_two_rows =
    ["Class"; "Length"; "TFIDF_H"; "TFIDF_S"; "TFIDF_J"; "Z_Length"; "F"] /\
  row_counts normalized_two_rows = [2; 2; 2; 2; 2; 2; 2] /\
  Forall (fun c => length (snd c) = 2) normalized_two_rows.
Proof.
  destruct (normalize_keeps_shape two_rows normalized_two_rows eq_refl)
    as (Hnames & Hrows & Hrect).
  split; [exact Hnames|]. split; [exact Hrows|].
  apply Hrect. repeat constructor.
Defined.

(** X2.  Normalisation fails in one way only: with [KeyError] for the first
    of Class, Length, TFIDF_H, TFIDF_S, TFIDF_J, Z_Length that the dataset
    lacks; when it lacks none, normalisation returns. *)
Theorem normalize_error (ds : frame) :
  match first_missing ds with
  | Some c => normalize ds = inl (KeyError c)
  | None => exists nds, normalize ds = inr nds
  end.
Proof.
  unfold first_missing, restored_columns, normalize, restore.
  unfold mbind, result_bind, mret, result_ret. cbn [List.find].
  destruct (get_column "Class" ds); [|reflexivity].
  destruct (get_column "Length" ds); [|reflexivity].
  destruct (get_column "TFIDF_H" ds); [|reflexivity].
  destruct (get_column "TFIDF_S" ds); [|reflexivity].
  destruct (get_column "TFIDF_J" ds); [|reflexivity].
  destruct (get_column "Z_Length" ds); [|reflexivity].
  eauto.
Qed.

Lemma normalize_error_witness :
  normalize lacks_two = inl (KeyError "TFIDF_S").
Proof. exact (normalize_error lacks_two). Defined.

Lemma get_column_absent (c : string) (ds : frame) :
  c ∉ map fst ds -> get_column c ds = None.
Proof.
  induction ds as [|[d xs] ds IH]; [reflexivity|].
  cbn. rewrite not_elem_of_cons. intros [Hne Hnin].
  apply String.eqb_neq in Hne. rewrite Hne. auto.
Qed.

Lemma drop_column_present (c : string) (ds : frame) :
  is_Some (get_column c ds) -> is_Some (drop_column c ds).
Proof.
  induction ds as [|[d xs] ds IH]; cbn; [intros [? H]; discriminate H|].
  destruct (String.eqb c d); [eauto|]. intros H.
  destruct (IH H) as [X ->]. cbn. eauto.
Qed.

Lemma drop_column_others (c c' : string) (ds X : frame) :
  drop_column c ds = Some X -> c' <> c -> get_column c' X = get_column c' ds.
Proof.
  revert X. induction ds as [|[d xs] ds IH]; intros X; cbn; [discriminate|].
  destruct (String.eqb c d) eqn:E.
  - intros [= <-] Hne. apply String.eqb_eq in E. subst d.
    apply String.eqb_neq in Hne. rewrite Hne. reflexivity.
  - destruct (drop_column c ds) as [X'|]; [|discriminate].
    intros [= <-] Hne. cbn. rewrite (IH X' eq_refl Hne). reflexivity.
Qed.

Lemma drop_column_gone (c : string) (ds X : frame) :
  NoDup (map fst ds) -> drop_column c ds = Some X -> get_column c X = None.
Proof.
  revert X. induction ds as [|[d xs] ds IH]; intros X Hnd; cbn; [discriminate|].
  cbn in Hnd. apply NoDup_cons in Hnd as [Hd Hnd].
  destruct (String.eqb c d) eqn:E.
  - intros [= <-]. apply String.eqb_eq in E. subst d.
    apply get_column_absent, Hd.
  - destruct (drop_column c ds) as [X'|]; [|discriminate].
    intros [= <-]. cbn. rewrite E. apply (IH X' Hnd eq_refl).
Qed.

(** X3.  After normalisation the features [X] of line 27 always exist: they
    hold every column other than Class exactly as the normalised dataset has
    it, and, the column names being distinct, no column Class. *)
Theorem features_exclude_label (ds nds : frame) :
  normalize ds = inr nds ->
  exists X,
    feature_frame nds = inr X /\
    (forall c, c <> "Class" -> get_column c X = get_column c nds) /\
    (NoDup (map fst ds) -> get_column "Class" X = None).
Proof.
  intros H.
  destruct (Normalization.normalize_restored ds nds "Class" H) as [Hsome Heq];
    [repeat constructor|].
  rewrite <- Heq in Hsome. apply drop_column_present in Hsome as [X HX].
  exists X. unfold feature_frame. rewrite HX. split; [reflexivity|]. split.
  - intros c Hc. apply (drop_column_others "Class" c nds X HX Hc).
  - intros Hnd. apply (drop_column_gone "Class" nds X); [|exact HX].
    destruct (normalize_shape ds nds H) as [-> _]. exact Hnd.
Qed.

Lemma features_exclude_label_witness :
  exists X,
    feature_frame normalized_two_rows = inr X /\
    get_column "Length" X = Some [3; 5]%R /\
    get_column "Class" X = None.
Proof.
  destruct (features_exclude_label two_rows normalized_two_rows eq_refl)
    as (X & HX & Hothers & Hlabel).
  exists X. split; [exact HX|]. split.
  - rewrite (Hothers "Length") by discriminate. reflexivity.
  - apply Hlabel. apply (bool_decide_unpack _). vm_compute. exact I.
Defined.

Section Units.

#[local] Open Scope R_scope.

Variables (a b : R).

Lemma sum_list_rescale xs :
  sum_list (map (rescale a b) xs) = a * sum_list xs + INR (length xs) * b.
Proof.
  induction xs as [|x xs IH]; [simpl; lra|].
  change (length (x :: xs)) with (S (length xs)). rewrite S_INR.
  simpl. rewrite IH. unfold rescale. lra.
Qed.

Lemma mean_rescale xs :
  xs <> [] -> mean (map (rescale a b) xs) = a * mean xs + b.
Proof.
  intros Hne. unfold mean. rewrite sum_list_rescale, length_map.
  assert (Hn : INR (length xs) <> 0).
  { apply not_0_INR. destruct xs; [contradiction|discriminate]. }
  field. exact Hn.
Qed.

Lemma sum_sq_rescale m xs :
  sum_sq (a * m + b) (map (rescale a b) xs) = a * a * sum_sq m xs.
Proof.
  unfold sum_sq. induction xs as [|x xs IH]; simpl; [lra|].
  rewrite IH. unfold rescale. lra.
Qed.

Lemma variance_rescale xs :
  xs <> [] -> variance (map (rescale a b) xs) = a * a * variance xs.
Proof.
  intros Hne. unfold variance.
  rewrite (mean_rescale xs Hne), sum_sq_rescale, length_map.
  unfold Rdiv. ring.
Qed.

Lemma std_rescale xs :
  xs <> [] -> 0 <= a -> std (map (rescale a b) xs) = a * std xs.
Proof.
  intros Hne Ha. unfold std. rewrite (variance_rescale xs Hne).
  rewrite sqrt_mult_alt by (apply Rmult_le_pos; exact Ha).
  rewrite sqrt_square by exact Ha. reflexivity.
Qed.

(** X4.  In exact arithmetic the z-scores of line 17 do not depend on the
    unit of a column: rescaling a column by a positive factor and shifting it
    leaves its z-scores unchanged, for a column of at least two rows whose
    standard deviation is not zero. *)
Theorem zscore_unit_free (xs : column) :
  0 < a -> (2 <= length xs)%nat -> std xs <> 0 ->
  zscore (map (rescale a b) xs) = zscore xs.
Proof.
  intros Ha Hlen Hstd.
  assert (Hne : xs <> []) by (destruct xs; [cbn in Hlen; lia|discriminate]).
  unfold zscore. rewrite map_map.
  rewrite (mean_rescale xs Hne), (std_rescale xs Hne) by lra.
  apply map_ext. intros x. unfold rescale. field. split; lra.
Qed.

End Units.

Lemma zscore_unit_free_witness :
  zscore (map (rescale 1000 32) [1; 2]%R) = zscore [1; 2]%R.
Proof.
  apply (zscore_unit_free 1000 32 [1; 2]%R).
  - lra.
  - cbn. lia.
  - unfold std. rewrite Normalization.variance_one_two.
    apply Rgt_not_eq, sqrt_lt_R0. lra.
Defined.

(** X5.  The labels handed to the search and to the fit on lines 89 and 94,
    [y_train.values.ravel()], are the cells of the label column in row
    order: flattening a one-column frame gives back its column. *)
Theorem ravel_one_column (c : string) (xs : column) :
  values_ravel [(c, xs)] = xs.
Proof.
  cbn [values_ravel map snd].
  induction xs as [|x xs IH]; [reflexivity|].
  cbn [length ravel_rows omap map head tail]. cbn. f_equal. exact IH.
Qed.

End Shape.

(** ** More on evaluation, search and whole runs *)

Module Stages.

Import Stats Pandas Py Lib Train Example.

Lemma evaluate_model_unpack `{L : Library} X_test y_test model x_ y_true
    show_plot w y_pred counts :
  predict model x_ = inr y_pred ->
  confusion_matrix (OfFrame y_true) y_pred = inr counts ->
  length counts <> 4 ->
  evaluate_model X_test y_test model x_ y_true show_plot w =
    (inl ValueError, w).
Proof.
  intros Hp Hc Hlen. unfold evaluate_model. unfold_monad.
  rewrite Hp, Hc.
  destruct counts as [|tn [|fp [|fn [|tp [|extra counts]]]]];
    try reflexivity.
  cbn in Hlen. contradiction.
Qed.

(** X6.  [evaluate_model] without a plot only prints: it leaves the files,
    the random generator and the log as they are.  What it prints are
    lines that start, in this order, with Specificity, Sensitivity/Recall,
    Precision, F2-Score, Confusion Matrix, tp, fp, PR-AUC, up to the first
    metric that raises; all eight when it returns.  When the confusion
    matrix does not have exactly four cells, as when a class is absent, it
    raises [ValueError] and prints nothing. *)
Theorem evaluate_model_report `{L : Library} X_test y_test model x_ y_true w :
  fs (evaluate_model X_test y_test model x_ y_true false w).2 = fs w /\
  rng (evaluate_model X_test y_test model x_ y_true false w).2 = rng w /\
  trace (evaluate_model X_test y_test model x_ y_true false w).2 = trace w /\
  (exists lines,
     stdout (evaluate_model X_test y_test model x_ y_true false w).2 =
       (stdout w ++ lines)%list /\
     map line_label lines `prefix_of` map Some report_labels /\
     ((evaluate_model X_test y_test model x_ y_true false w).1 = inr tt ->
      length lines = 8)) /\
  (forall y_pred counts,
     predict model x_ = inr y_pred ->
     confusion_matrix (OfFrame y_true) y_pred = inr counts ->
     length counts <> 4 ->
     evaluate_model X_test y_test model x_ y_true false w =
       (inl ValueError, w)).
Proof.
  split; [|split; [|split; [|split]]].
  5: { intros y_pred counts. apply evaluate_model_unpack. }
  all: destruct w as [f g a e out tr]; unfold evaluate_model; exec_in_world;
    try reflexivity.
  all: first
    [ exists []; split; [symmetry; apply app_nil_r|];
      split; [eexists; reflexivity | intros Hok; discriminate Hok]
    | eexists; split; [rewrite <- ?app_assoc; reflexivity|];
      split; [eexists; reflexivity
             | intros Hok; first [reflexivity | discriminate Hok]] ].
Qed.

Lemma evaluate_model_report_witness :
  @evaluate_model (toy_with [2%Z] [tt]) two_rows two_rows (default_params, true)
      two_rows two_rows false (World fresh_files 0 [] ∅ [] []) =
    (inl ValueError, World fresh_files 0 [] ∅ [] []) /\
  (exists lines,
     stdout (@evaluate_model toy two_rows two_rows (default_params, true)
               two_rows two_rows false (World fresh_files 0 [] ∅ [] [])).2 =
       ([] ++ lines)%list /\
     map line_label lines `prefix_of` map Some report_labels /\
     length lines = 8).
Proof.
  split.
  - destruct (@evaluate_model_report (toy_with [2%Z] [tt]) two_rows two_rows
                (default_params, true) two_rows two_rows
                (World fresh_files 0 [] ∅ [] []))
      as (_ & _ & _ & _ & Hunpack).
    apply (Hunpack [0; 1]%R [2]%Z); [reflexivity|reflexivity|].
    cbn. lia.
  - destruct (@evaluate_model_report toy two_rows two_rows
                (default_params, true) two_rows two_rows
                (World fresh_files 0 [] ∅ [] []))
      as (_ & _ & _ & (lines & Hout & Hpre & Hlen) & _).
    exists lines. split; [exact Hout|]. split; [exact Hpre|].
    apply Hlen. vm_compute. reflexivity.
Defined.



(** X8.  When the tuner has no best hyperparameters to give, line 90 raises
    [IndexError]: nothing is built or fitted, and the files and the random
    generator stay as the search left them. *)
Theorem search_without_trials `{L : Library} X_train y_train w
    t1 f1 g1 lines1 t2 f2 g2 lines2 :
  SklearnTuner tuner_arguments (fs w) (rng w) (argv w) (environ w) =
    (inr t1, f1, g1, lines1) ->
  search t1 X_train (values_ravel y_train) f1 g1 (argv w) (environ w) =
    (inr t2, f2, g2, lines2) ->
  get_best_hyperparameters t2 = inr [] ->
  search_and_fit X_train y_train w =
    (inl IndexError,
     World f2 g2 (argv w) (environ w) ((stdout w ++ lines1) ++ lines2)
       (trace w ++ [EvSearch])).
Proof.
  intros Hnew Hsearch Hbest. destruct w as [f g a e out tr].
  cbn [fs rng argv environ] in Hnew, Hsearch.
  unfold search_and_fit. unfold_monad. simp_fields.
  rewrite Hnew. simp_fields. rewrite Hsearch. simp_fields. rewrite Hbest.
  reflexivity.
Qed.

Lemma search_without_trials_witness :
  @search_and_fit (toy_with [1; 0; 0; 1]%Z []) (rows_from 1 two_rows)
      [("Class", [1%R])] (World fresh_files 0 [] ∅ [] []) =
    (inl IndexError,
     World (searched fresh_files) 1 [] ∅
       (([] ++ []) ++ [[PStr "Search: Running Trial #1"]]) ([] ++ [EvSearch])).
Proof.
  apply (@search_without_trials (toy_with [1; 0; 0; 1]%Z [])
           (rows_from 1 two_rows) [("Class", [1%R])]
           (World fresh_files 0 [] ∅ [] [])
           tt (<["./model/random_forest/oracle.json" := File "{}"]> fresh_files)
           0%N [] tt (searched fresh_files) 1%N
           [[PStr "Search: Running Trial #1"]]);
    reflexivity.
Defined.

End Stages.

(** ** More on whole runs *)

Module Runs.

Import Stats Pandas Py Lib Train Example.

(** X9.  With a cached forest the run only reads: when [model.sav] unpickles
    to a [RandomForestClassifier], the run leaves every file and the random
    generator as they were, and executes nothing but read, normalise, split,
    load and evaluate. *)
Theorem cached_run_reads_only `{L : Library} f g a e content m :
  f !! filename = Some (File content) ->
  pickle_load content = inr (PyForest m) ->
  fs (run f g a e).2 = f /\
  rng (run f g a e).2 = g /\
  sublist (trace (run f g a e).2)
    [EvReadCsv csv_path; EvNormalize; EvSplit; EvLoadModel filename;
     EvEvaluate].
Proof.
  intros Hfile Hobj. exec_script; try congruence.
  all: split; [reflexivity|]; split; [reflexivity|].
  all: repeat first [ apply sublist_nil | apply sublist_skip | apply sublist_cons ].
Qed.

Lemma cached_run_reads_only_witness :
  fs (@run toy cached_files 7 [] ∅).2 = cached_files /\
  rng (@run toy cached_files 7 [] ∅).2 = 7%N /\
  sublist (trace (@run toy cached_files 7 [] ∅).2)
    [EvReadCsv csv_path; EvNormalize; EvSplit; EvLoadModel filename;
     EvEvaluate].
Proof.
  apply (@cached_run_reads_only toy cached_files 7%N [] ∅ "forest"
           (default_params, true)); vm_compute; reflexivity.
Defined.

(** X10.  A run that ends normally leaves a model file behind: [model.sav]
    is then a regular file, either the one that was there at the save or the
    one the save wrote. *)
Theorem completed_run_has_model_file `{L : Library} f g a e :
  (run f g a e).1 = inr tt ->
  exists content, fs (run f g a e).2 !! filename = Some (File content).
Proof.
  exec_script; intros Hok; try discriminate Hok.
  all: rewrite ?lookup_insert_eq; eauto.
Qed.

Lemma completed_run_has_model_file_witness :
  exists content,
    fs (@run toy fresh_files 0 [] ∅).2 !! filename = Some (File content).
Proof.
  apply (@completed_run_has_model_file toy fresh_files 0%N [] ∅).
  vm_compute. reflexivity.
Defined.

(** X11.  The script itself writes no file but [model.sav]: a path other
    than [model.sav] that the tuner keeps away from names the same thing
    after the run as before; so the data file is never changed by a run
    whose tuner leaves it alone. *)
Theorem run_writes_model_file_only `{L : Library} f g a e path :
  path <> filename ->
  tuner_keeps_off path ->
  fs (run f g a e).2 !! path = f !! path.
Proof.
  intros Hpath [Hk1 Hk2]. exec_script; tuner_facts Hk1 Hk2.
  all: rewrite ?lookup_insert_ne by congruence; congruence.
Qed.

Lemma toy_tuner_keeps_off_data : @tuner_keeps_off toy csv_path.
Proof.
  split; intros; cbn; apply lookup_insert_ne; discriminate.
Qed.

Lemma run_writes_model_file_only_witness :
  fs (@run toy fresh_files 0 [] ∅).2 !! csv_path = Some (File "two rows").
Proof.
  rewrite (@run_writes_model_file_only toy fresh_files 0%N [] ∅ csv_path).
  - vm_compute. reflexivity.
  - discriminate.
  - exact toy_tuner_keeps_off_data.
Defined.





End Runs.
